(** * Typography [Base] component: a shallow embedding and its properties

    Source: [src/components/typography/Base/index.tsx].

    The component is a React function component.  Its pure helpers
    ([wrapperDecorations], the ellipsis decision [cssEllipsis], ...) become
    Rocq functions; its hook state becomes a record that the event handlers
    update; its effects (clipboard, timers, user callbacks) are threaded
    through a small state-and-output monad. *)

From Stdlib Require Import ZArith Lia.
From stdpp Require Import base option list strings gmap.

Set Warnings "-register-all".

Local Open Scope Z_scope.

(** ** React nodes *)

(** The part of [React.ReactNode] the component manipulates: text, the empty
    values, an element [React.createElement(tag, {}, child)], and an array
    of nodes (several children, or a fragment). *)
Inductive ReactNode : Type :=
| RText (s : string)
| RUndefined
| RNull
| RElement (tag : string) (child : ReactNode)
| RArray (items : list ReactNode).

(** [Array.prototype.join(",")] on already stringified items. *)
Fixpoint join_comma (l : list string) : string :=
  match l with
  | [] => EmptyString
  | [s] => s
  | s :: rest => s +:+ "," +:+ join_comma rest
  end.

(** JavaScript's [String(value)] on the nodes above.  An element is a plain
    object; an array is joined with commas, its [null] and [undefined]
    items printing as the empty string. *)
Fixpoint js_String (n : ReactNode) : string :=
  match n with
  | RText s => s
  | RUndefined => "undefined"
  | RNull => "null"
  | RElement _ _ => "[object Object]"
  | RArray items =>
      join_comma
        (map (fun item =>
                match item with
                | RUndefined | RNull => EmptyString
                | _ => js_String item
                end) items)
  end.

(** JavaScript truthiness of an optional boolean ([boolean | undefined]). *)
Definition truthy (b : option bool) : bool :=
  match b with
  | Some true => true
  | _ => false
  end.

(** ** Decorations *)

(** The decoration flags of [BlockProps]; [del] is the source's local name
    for the [delete] prop. *)
Record Decorations : Type := {
  code : option bool;
  mark : option bool;
  underline : option bool;
  del : option bool;
  strong : option bool;
  keyboard : option bool;
  italic : option bool;
}.

(** The inner function [wrap] of [wrapperDecorations]: the assignment to
    the enclosing [currentContent] is made explicit by passing it through. *)
Definition wrap (needed : option bool) (tag : string)
    (currentContent : ReactNode) : ReactNode :=
  if negb (truthy needed) then currentContent
  else RElement tag currentContent.

Definition wrapperDecorations (props : Decorations) (content : ReactNode)
    : ReactNode :=
  let currentContent := content in
  let currentContent := wrap (strong props) "strong" currentContent in
  let currentContent := wrap (underline props) "u" currentContent in
  let currentContent := wrap (del props) "del" currentContent in
  let currentContent := wrap (code props) "code" currentContent in
  let currentContent := wrap (mark props) "mark" currentContent in
  let currentContent := wrap (keyboard props) "kbd" currentContent in
  let currentContent := wrap (italic props) "i" currentContent in
  currentContent.

(** The tags of the nested elements around a node, outermost first. *)
Fixpoint layers (n : ReactNode) : list string :=
  match n with
  | RElement tag child => tag :: layers child
  | _ => []
  end.

(** The requested decorations as a list of tags, in the order in which
    [wrapperDecorations] applies them. *)
Definition decorationTags (props : Decorations) : list string :=
  (if truthy (strong props) then ["strong"] else []) ++
  (if truthy (underline props) then ["u"] else []) ++
  (if truthy (del props) then ["del"] else []) ++
  (if truthy (code props) then ["code"] else []) ++
  (if truthy (mark props) then ["mark"] else []) ++
  (if truthy (keyboard props) then ["kbd"] else []) ++
  (if truthy (italic props) then ["i"] else []).

(** Wrapping a node in a sequence of tags, each one around the result of
    the previous ones. *)
Definition wrapAll (tags : list string) (content : ReactNode) : ReactNode :=
  fold_left (fun inner tag => RElement tag inner) tags content.

Definition noDecorations : Decorations :=
  {| code := None; mark := None; underline := None; del := None;
     strong := None; keyboard := None; italic := None |}.

Definition strongItalic : Decorations :=
  {| code := None; mark := None; underline := None; del := None;
     strong := Some true; keyboard := None; italic := Some true |}.

(** ** Configuration props *)

(** A user callback is opaque; what matters is whether one is configured
    and, in the output of a handler, that it was called. *)
Definition Callback : Type := unit.

Inductive TriggerType : Type := TriggerIcon | TriggerText.

#[global] Instance TriggerType_eq_dec : EqDecision TriggerType.
Proof. solve_decision. Defined.

(** [interface CopyConfig], without the fields that only carry icons and
    tooltips. *)
Module CopyConfig.
Record t : Type := {
  text : option string;
  onCopy : option Callback;
}.
Definition empty : t := {| text := None; onCopy := None |}.
End CopyConfig.

(** [interface EditConfig], without the fields that are only passed on to
    the inline editor. *)
Module EditConfig.
Record t : Type := {
  editing : option bool;
  onStart : option Callback;
  onChange : option Callback;
  onCancel : option Callback;
  onEnd : option Callback;
  triggerType : option (list TriggerType);
}.
Definition empty : t :=
  {| editing := None; onStart := None; onChange := None; onCancel := None;
     onEnd := None; triggerType := None |}.
End EditConfig.

(** [interface EllipsisConfig].  [rows] is a JavaScript number holding a row
    count; it is an integer here, and [=== 1] and [> 1] are the comparisons
    of integers. *)
Module EllipsisConfig.
Record t : Type := {
  rows : option Z;
  expandable : option bool;
  suffix : option string;
  symbol : option ReactNode;
  onExpand : option Callback;
  onEllipsis : option Callback;
}.
Definition empty : t :=
  {| rows := None; expandable := None; suffix := None; symbol := None;
     onExpand := None; onEllipsis := None |}.
End EllipsisConfig.

(** An optional prop of type [boolean | Config]. *)
Inductive ConfigProp (C : Type) : Type :=
| PropUndefined
| PropBool (b : bool)
| PropObject (c : C).
Arguments PropUndefined {C}.
Arguments PropBool {C} b.
Arguments PropObject {C} c.

#[global] Instance CopyConfig_eq_dec : EqDecision CopyConfig.t.
Proof. solve_decision. Defined.

#[global] Instance ConfigProp_eq_dec {C : Type} `{EqDecision C} :
  EqDecision (ConfigProp C).
Proof. solve_decision. Defined.

(** JavaScript truthiness of such a prop: an object is truthy. *)
Definition propTruthy {C : Type} (x : ConfigProp C) : bool :=
  match x with
  | PropUndefined => false
  | PropBool b => b
  | PropObject _ => true
  end.

(** Object spread [{...a, ...b}] on a configuration type: the fields [b]
    defines override those of [a]. *)
Class Spread (C : Type) : Type := spread : C -> C -> C.

Definition orElse {A : Type} (b a : option A) : option A :=
  match b with
  | Some x => Some x
  | None => a
  end.

#[global] Instance CopyConfig_spread : Spread CopyConfig.t := fun a b =>
  {| CopyConfig.text := orElse (CopyConfig.text b) (CopyConfig.text a);
     CopyConfig.onCopy := orElse (CopyConfig.onCopy b) (CopyConfig.onCopy a) |}.

#[global] Instance EditConfig_spread : Spread EditConfig.t := fun a b =>
  {| EditConfig.editing := orElse (EditConfig.editing b) (EditConfig.editing a);
     EditConfig.onStart := orElse (EditConfig.onStart b) (EditConfig.onStart a);
     EditConfig.onChange := orElse (EditConfig.onChange b) (EditConfig.onChange a);
     EditConfig.onCancel := orElse (EditConfig.onCancel b) (EditConfig.onCancel a);
     EditConfig.onEnd := orElse (EditConfig.onEnd b) (EditConfig.onEnd a);
     EditConfig.triggerType :=
       orElse (EditConfig.triggerType b) (EditConfig.triggerType a) |}.

#[global] Instance EllipsisConfig_spread : Spread EllipsisConfig.t := fun a b =>
  {| EllipsisConfig.rows := orElse (EllipsisConfig.rows b) (EllipsisConfig.rows a);
     EllipsisConfig.expandable :=
       orElse (EllipsisConfig.expandable b) (EllipsisConfig.expandable a);
     EllipsisConfig.suffix :=
       orElse (EllipsisConfig.suffix b) (EllipsisConfig.suffix a);
     EllipsisConfig.symbol :=
       orElse (EllipsisConfig.symbol b) (EllipsisConfig.symbol a);
     EllipsisConfig.onExpand :=
       orElse (EllipsisConfig.onExpand b) (EllipsisConfig.onExpand a);
     EllipsisConfig.onEllipsis :=
       orElse (EllipsisConfig.onEllipsis b) (EllipsisConfig.onEllipsis a) |}.

(** Modelled from the spec: the hook [useMergedConfig] of
    [../hooks/useMergedConfig] is not among the sources.  The specification
    (4.1, Configuration Normalizer) gives it as a pure function: "given a
    prop value that is undefined | false | true | Partial<Config>, produce
    enabled = value is truthy, and config = defaults merged with (value if
    it is an object)"; "absent/false yields disabled with default config
    object".  [templateConfig] holds the defaults. *)
Definition useMergedConfig {C : Type} `{Spread C}
    (propConfig : ConfigProp C) (templateConfig : C) : bool * C :=
  (propTruthy propConfig,
   match propConfig with
   | PropObject c => spread templateConfig c
   | _ => templateConfig
   end).

(** Modelled from the spec: the hook [useMergedState] of rc-util is not
    among the sources.  The specification (3, Data Model) gives the
    [editing] flag as "controlled if an explicit value is supplied,
    otherwise locally owned": the hook returns the supplied value when one
    is defined and the locally held one otherwise; the setter it returns
    writes the locally held value. *)
Definition useMergedState {A : Type} (value : option A) (innerValue : A) : A :=
  match value with
  | Some v => v
  | None => innerValue
  end.

(** ** Props, environment and hook state *)

(** The props of [Base] that the component logic reads.  [onClick] stands
    for an [onClick] entry among the remaining props, which are spread on
    the text element after the component's own handler. *)
Record BlockProps : Type := {
  children : ReactNode;
  editable : ConfigProp EditConfig.t;
  copyable : ConfigProp CopyConfig.t;
  ellipsis : ConfigProp EllipsisConfig.t;
  decorations : Decorations;
  onClick : option Callback;
}.

(** The style capabilities probed once when the module is loaded
    ([isStyleSupport] is not among the sources; its two results are taken
    as given). *)
Record Env : Type := {
  isLineClampSupport : bool;
  isTextOverflowSupport : bool;
}.

(** The values held by [useState]/[useMergedState] for one instance. *)
Record Hooks : Type := {
  innerEditing : bool;
  copied : bool;
  expanded : bool;
  isJsEllipsis : bool;
  isNativeEllipsis : bool;
  ellipsisWidth : Z;
}.

#[global] Instance Hooks_eq_dec : EqDecision Hooks.
Proof. solve_decision. Defined.

Definition initialHooks : Hooks :=
  {| innerEditing := false; copied := false; expanded := false;
     isJsEllipsis := false; isNativeEllipsis := false; ellipsisWidth := 0 |}.

Definition ELLIPSIS_STR : string := "...".

(** ** Values computed during a render *)

Section Render.
Variable env : Env.
Variable props : BlockProps.
Variable h : Hooks.

(** [const [enableEdit, editConfig] = useMergedConfig(editable)] *)
Definition enableEdit : bool :=
  fst (useMergedConfig (editable props) EditConfig.empty).
Definition editConfig : EditConfig.t :=
  snd (useMergedConfig (editable props) EditConfig.empty).

(** [const [editing, setEditing] = useMergedState(false, { value:
    editConfig.editing })]: the value shown by this render. *)
Definition editing : bool :=
  useMergedState (EditConfig.editing editConfig) (innerEditing h).

(** [const { triggerType = ['icon'] } = editConfig] *)
Definition triggerType : list TriggerType :=
  default [TriggerIcon] (EditConfig.triggerType editConfig).

(** [const [enableCopy, copyConfig] = useMergedConfig(copyable)]: the
    object the hook hands to a render. *)
Definition enableCopy : bool :=
  fst (useMergedConfig (copyable props) CopyConfig.empty).
Definition mergedCopyConfig : CopyConfig.t :=
  snd (useMergedConfig (copyable props) CopyConfig.empty).

(** [useMergedConfig(ellipsis, { expandable: false })] *)
Definition ellipsisTemplate : EllipsisConfig.t :=
  {| EllipsisConfig.rows := None; EllipsisConfig.expandable := Some false;
     EllipsisConfig.suffix := None; EllipsisConfig.symbol := None;
     EllipsisConfig.onExpand := None; EllipsisConfig.onEllipsis := None |}.
Definition enableEllipsis : bool :=
  fst (useMergedConfig (ellipsis props) ellipsisTemplate).
Definition ellipsisConfig : EllipsisConfig.t :=
  snd (useMergedConfig (ellipsis props) ellipsisTemplate).

Definition mergedEnableEllipsis : bool :=
  enableEllipsis && negb (expanded h).

(** [const { rows = 1 } = ellipsisConfig] *)
Definition rows : Z := default 1 (EllipsisConfig.rows ellipsisConfig).

(** The body of the [useMemo] that yields [cssEllipsis].  Every value the
    body reads is derived from the listed dependencies, so the memoised
    value is the value of the body. *)
Definition cssEllipsis : bool :=
  if negb mergedEnableEllipsis
     || bool_decide (EllipsisConfig.suffix ellipsisConfig <> None)
     || bool_decide (is_Some (EllipsisConfig.onEllipsis ellipsisConfig))
     || truthy (EllipsisConfig.expandable ellipsisConfig)
     || enableEdit
     || enableCopy
  then false
  else if rows =? 1 then isTextOverflowSupport env
  else isLineClampSupport env.

Definition isMergedEllipsis : bool :=
  mergedEnableEllipsis &&
  (if cssEllipsis then isNativeEllipsis h else isJsEllipsis h).

Definition cssTextOverflow : bool :=
  mergedEnableEllipsis && (rows =? 1) && cssEllipsis.
Definition cssLineClamp : bool :=
  mergedEnableEllipsis && (1 <? rows) && cssEllipsis.

(** [enabledMeasure={mergedEnableEllipsis && !cssEllipsis}] of the
    measuring helper: script-measured truncation is in use. *)
Definition enabledMeasure : bool :=
  mergedEnableEllipsis && negb cssEllipsis.

(** [disabled={!mergedEnableEllipsis || cssEllipsis}] of the resize
    observer. *)
Definition resizeDisabled : bool :=
  negb mergedEnableEllipsis || cssEllipsis.
End Render.

(** ** The rendered view *)

(** The controls that [renderOperations] can produce. *)
Inductive Control : Type := ExpandControl | EditControl | CopyControl.

(** What a click on the text element runs. *)
Inductive ClickHandler : Type := RunOnEditClick | RunPropsOnClick.

Section View.
Variable env : Env.
Variable props : BlockProps.
Variable h : Hooks.

Definition renderExpand : option Control :=
  if negb (truthy (EllipsisConfig.expandable (ellipsisConfig props)))
  then None
  else Some ExpandControl.

Definition renderEdit : option Control :=
  if negb (enableEdit props) then None
  else if bool_decide (TriggerIcon ∈ triggerType props)
       then Some EditControl
       else None.

Definition renderCopy : option Control :=
  if negb (enableCopy props) then None else Some CopyControl.

(** The array of [renderOperations], without its empty entries. *)
Definition renderOperations (renderExpanded : bool) : list Control :=
  omap id [ (if renderExpanded then renderExpand else None);
            renderEdit; renderCopy ].

(** [renderSuffix]: the ellipsis string with the configured suffix when
    the text is cut, and the operations.  The controls are not text
    nodes and are kept apart from them. *)
Definition renderSuffix (needEllipsis : bool)
    : list ReactNode * list Control :=
  ((if needEllipsis then
      [RText ELLIPSIS_STR;
       match EllipsisConfig.suffix (ellipsisConfig props) with
       | Some s => RText s
       | None => RUndefined
       end]
    else []),
   renderOperations needEllipsis).

(** The [onClick] that reaches the text element:
    [onClick={triggerType.includes('text') ? onEditClick : null}]
    followed by [{...textProps}], which replaces it when the remaining
    props carry an [onClick] of their own. *)
Definition typographyOnClick : option ClickHandler :=
  match onClick props with
  | Some _ => Some RunPropsOnClick
  | None =>
      if bool_decide (TriggerText ∈ triggerType props)
      then Some RunOnEditClick
      else None
  end.

(** The class names and style of the text element that depend on the
    ellipsis decision. *)
Record TypographyView : Type := {
  observerDisabled : bool;
  tooltipEnabledEllipsis : bool;
  tooltipIsEllipsis : bool;
  classEllipsis : bool;
  classSingleLine : bool;
  classEllipsisSingleLine : bool;
  classEllipsisMultipleLine : bool;
  WebkitLineClamp : option Z;
  viewOnClick : option ClickHandler;
  measureEnabled : bool;
  measureRows : Z;
  measureWidth : Z;
  operations : bool -> list Control;
}.

Inductive View : Type :=
| EditableView (value : string)
| Typography (v : TypographyView).

(** The render of [Base]: the inline editor while [editing], the text
    element otherwise. *)
Definition render : View :=
  if editing props h then
    EditableView (match children props with RText s => s | _ => EmptyString end)
  else
    Typography
      {| observerDisabled := resizeDisabled env props h;
         tooltipEnabledEllipsis := mergedEnableEllipsis props h;
         tooltipIsEllipsis := isMergedEllipsis env props h;
         classEllipsis := enableEllipsis props;
         classSingleLine := mergedEnableEllipsis props h && (rows props =? 1);
         classEllipsisSingleLine := cssTextOverflow env props h;
         classEllipsisMultipleLine := cssLineClamp env props h;
         WebkitLineClamp :=
           if cssLineClamp env props h then Some (rows props) else None;
         viewOnClick := typographyOnClick;
         measureEnabled := enabledMeasure env props h;
         measureRows := rows props;
         measureWidth := ellipsisWidth h;
         operations := fun needEllipsis => snd (renderSuffix needEllipsis) |}.
End View.

(** ** The instance and its host *)

(** The only callback the component ever passes to [setTimeout]:
    [() => { setCopied(false) }]. *)
Inductive TimerCallback : Type := ResetCopied.

(** What a handler does to the outside: calls of user callbacks, the
    clipboard write and [e.preventDefault()].  The focus that the
    [useUpdatedEffect] of the source puts on the edit icon after edit mode
    has ended acts on the document only; it is not among them. *)
Inductive Effect : Type :=
| PreventDefault
| ClipboardCopy (text : string)
| Call_onStart
| Call_onChange (value : string)
| Call_onCancel
| Call_onCopy
| Call_onExpand
| Call_onEllipsis (ellipsis : bool)
| Call_onClick.

(** One instance and the timeouts it has pending with the host.
    [copyConfig] is the object that [useMergedConfig(copyable)] handed to
    the current render; [onCopyClick] writes to it.  [timers] maps the
    identifier of each pending timeout to its due time and callback;
    identifiers are handed out in increasing order and never reused. *)
Record World : Type := {
  props : BlockProps;
  hooks : Hooks;
  copyIdRef : option nat;
  copyConfig : CopyConfig.t;
  mounted : bool;
  now : Z;
  timers : gmap nat (Z * TimerCallback);
  nextTimerId : nat;
}.

Definition with_props (p : BlockProps) (w : World) : World :=
  {| props := p; hooks := hooks w; copyIdRef := copyIdRef w;
     copyConfig := copyConfig w; mounted := mounted w; now := now w;
     timers := timers w; nextTimerId := nextTimerId w |}.
Definition with_hooks (x : Hooks) (w : World) : World :=
  {| props := props w; hooks := x; copyIdRef := copyIdRef w;
     copyConfig := copyConfig w; mounted := mounted w; now := now w;
     timers := timers w; nextTimerId := nextTimerId w |}.
Definition with_copyIdRef (x : option nat) (w : World) : World :=
  {| props := props w; hooks := hooks w; copyIdRef := x;
     copyConfig := copyConfig w; mounted := mounted w; now := now w;
     timers := timers w; nextTimerId := nextTimerId w |}.
Definition with_copyConfig (x : CopyConfig.t) (w : World) : World :=
  {| props := props w; hooks := hooks w; copyIdRef := copyIdRef w;
     copyConfig := x; mounted := mounted w; now := now w;
     timers := timers w; nextTimerId := nextTimerId w |}.
Definition with_mounted (x : bool) (w : World) : World :=
  {| props := props w; hooks := hooks w; copyIdRef := copyIdRef w;
     copyConfig := copyConfig w; mounted := x; now := now w;
     timers := timers w; nextTimerId := nextTimerId w |}.
Definition with_now (x : Z) (w : World) : World :=
  {| props := props w; hooks := hooks w; copyIdRef := copyIdRef w;
     copyConfig := copyConfig w; mounted := mounted w; now := x;
     timers := timers w; nextTimerId := nextTimerId w |}.
Definition with_timers (x : gmap nat (Z * TimerCallback)) (w : World) : World :=
  {| props := props w; hooks := hooks w; copyIdRef := copyIdRef w;
     copyConfig := copyConfig w; mounted := mounted w; now := now w;
     timers := x; nextTimerId := nextTimerId w |}.
Definition with_nextTimerId (x : nat) (w : World) : World :=
  {| props := props w; hooks := hooks w; copyIdRef := copyIdRef w;
     copyConfig := copyConfig w; mounted := mounted w; now := now w;
     timers := timers w; nextTimerId := x |}.

(** ** Handlers as programs *)

(** A handler transforms the world, returns a value and outputs the
    effects it performed, oldest first. *)
Definition M (A : Type) : Type := World -> A * World * list Effect.

#[global] Instance M_ret : MRet M := fun A x w => (x, w, []).
#[global] Instance M_bind : MBind M := fun A B f m w =>
  let '(x, w1, out1) := m w in
  let '(y, w2, out2) := f x w1 in
  (y, w2, out1 ++ out2).

Definition emit (e : Effect) : M unit := fun w => (tt, w, [e]).
Definition getWorld : M World := fun w => (w, w, []).
Definition modifyWorld (f : World -> World) : M unit := fun w => (tt, f w, []).
Definition modifyHooks (f : Hooks -> Hooks) : M unit :=
  modifyWorld (fun w => with_hooks (f (hooks w)) w).

(** [callback?.(...)]: the call happens when the callback is defined. *)
Definition callOpt (callback : option Callback) (e : Effect) : M unit :=
  match callback with
  | Some _ => emit e
  | None => mret tt
  end.

(** The state setters. *)
Definition setEditing (x : bool) : M unit := modifyHooks (fun s =>
  {| innerEditing := x; copied := copied s; expanded := expanded s;
     isJsEllipsis := isJsEllipsis s; isNativeEllipsis := isNativeEllipsis s;
     ellipsisWidth := ellipsisWidth s |}).
Definition setCopied (x : bool) : M unit := modifyHooks (fun s =>
  {| innerEditing := innerEditing s; copied := x; expanded := expanded s;
     isJsEllipsis := isJsEllipsis s; isNativeEllipsis := isNativeEllipsis s;
     ellipsisWidth := ellipsisWidth s |}).
Definition setExpanded (x : bool) : M unit := modifyHooks (fun s =>
  {| innerEditing := innerEditing s; copied := copied s; expanded := x;
     isJsEllipsis := isJsEllipsis s; isNativeEllipsis := isNativeEllipsis s;
     ellipsisWidth := ellipsisWidth s |}).
Definition setIsJsEllipsis (x : bool) : M unit := modifyHooks (fun s =>
  {| innerEditing := innerEditing s; copied := copied s; expanded := expanded s;
     isJsEllipsis := x; isNativeEllipsis := isNativeEllipsis s;
     ellipsisWidth := ellipsisWidth s |}).
Definition setIsNativeEllipsis (x : bool) : M unit := modifyHooks (fun s =>
  {| innerEditing := innerEditing s; copied := copied s; expanded := expanded s;
     isJsEllipsis := isJsEllipsis s; isNativeEllipsis := x;
     ellipsisWidth := ellipsisWidth s |}).
Definition setEllipsisWidth (x : Z) : M unit := modifyHooks (fun s =>
  {| innerEditing := innerEditing s; copied := copied s; expanded := expanded s;
     isJsEllipsis := isJsEllipsis s; isNativeEllipsis := isNativeEllipsis s;
     ellipsisWidth := x |}).

(** [clearTimeout(id)]: the timeout, if still pending, is dropped; an
    undefined or stale identifier changes nothing. *)
Definition clearTimeout (id : option nat) : M unit :=
  match id with
  | Some i => modifyWorld (fun w => with_timers (delete i (timers w)) w)
  | None => mret tt
  end.

(** [setTimeout(callback, ms)]: a fresh identifier, due [ms] from now. *)
Definition setTimeout (callback : TimerCallback) (ms : Z) : M nat := fun w =>
  let id := nextTimerId w in
  (id,
   with_nextTimerId (S id)
     (with_timers (<[id := (now w + ms, callback)]> (timers w)) w),
   []).

(** [value || ''] on an optional string. *)
Definition orEmpty (value : option string) : string :=
  match value with
  | Some s => if bool_decide (s = EmptyString) then EmptyString else s
  | None => EmptyString
  end.

Section Handlers.
(** The render whose closures the handlers are: its props and the hook
    values it read. *)
Variable env : Env.
Variable p : BlockProps.
Variable c : Hooks.

Definition triggerEdit (edit : bool) : M unit :=
  (if edit then callOpt (EditConfig.onStart (editConfig p)) Call_onStart
   else mret tt) ;;
  setEditing edit.

Definition onEditClick : M unit :=
  emit PreventDefault ;;
  triggerEdit true.

Definition onEditChange (value : string) : M unit :=
  callOpt (EditConfig.onChange (editConfig p)) (Call_onChange value) ;;
  triggerEdit false.

Definition onEditCancel : M unit :=
  callOpt (EditConfig.onCancel (editConfig p)) Call_onCancel ;;
  triggerEdit false.

Definition cleanCopyId : M unit :=
  w ← getWorld ;
  clearTimeout (copyIdRef w).

Definition onCopyClick : M unit :=
  emit PreventDefault ;;
  w ← getWorld ;
  (if bool_decide (CopyConfig.text (copyConfig w) = None) then
     modifyWorld (with_copyConfig
       {| CopyConfig.text := Some (js_String (children p));
          CopyConfig.onCopy := CopyConfig.onCopy (copyConfig w) |})
   else mret tt) ;;
  w ← getWorld ;
  emit (ClipboardCopy (orEmpty (CopyConfig.text (copyConfig w)))) ;;
  setCopied true ;;
  cleanCopyId ;;
  id ← setTimeout ResetCopied 3000 ;
  modifyWorld (with_copyIdRef (Some id)) ;;
  w ← getWorld ;
  callOpt (CopyConfig.onCopy (copyConfig w)) Call_onCopy.

Definition onExpandClick : M unit :=
  setExpanded true ;;
  callOpt (EllipsisConfig.onExpand (ellipsisConfig p)) Call_onExpand.

Definition onResize (offsetWidth : Z) : M unit :=
  setEllipsisWidth offsetWidth.

Definition onJsEllipsis (jsEllipsis : bool) : M unit :=
  setIsJsEllipsis jsEllipsis ;;
  if bool_decide (isJsEllipsis c <> jsEllipsis) then
    callOpt (EllipsisConfig.onEllipsis (ellipsisConfig p))
      (Call_onEllipsis jsEllipsis)
  else mret tt.

(** The effect that reads the text element: [textEle] holds its
    [offsetWidth] and [scrollWidth] when the element exists. *)
Definition nativeEllipsisEffect (textEle : option (Z * Z)) : M unit :=
  match textEle with
  | Some (offsetWidth, scrollWidth) =>
      if enableEllipsis p && cssEllipsis env p c then
        let currentEllipsis := offsetWidth <? scrollWidth in
        if bool_decide (isNativeEllipsis c <> currentEllipsis) then
          setIsNativeEllipsis currentEllipsis
        else mret tt
      else mret tt
  | None => mret tt
  end.

(** A click on the text element runs the handler the render attached. *)
Definition onTextClick : M unit :=
  match typographyOnClick p with
  | Some RunOnEditClick => onEditClick
  | Some RunPropsOnClick => emit Call_onClick
  | None => mret tt
  end.
End Handlers.

(** ** The instance as a state machine *)

(** What can happen to a mounted instance.  Every handler is offered at
    every step; the rendered view decides which of them a user can reach,
    so what holds for all events holds for the reachable ones. *)
Inductive Event : Type :=
| EvRender (p' : BlockProps)
| EvEditClick
| EvTextClick
| EvEditSave (value : string)
| EvEditCancel
| EvCopyClick
| EvExpandClick
| EvResize (offsetWidth : Z)
| EvJsEllipsis (jsEllipsis : bool)
| EvLayout (textEle : option (Z * Z))
| EvAdvance (ms : Z)
| EvUnmount.

Definition runTimer (callback : TimerCallback) : M unit :=
  match callback with
  | ResetCopied => setCopied false
  end.

(** Time moves on by [ms] milliseconds; the timeouts that are due leave
    the table and their callbacks run. *)
Definition advance (ms : Z) : M unit :=
  modifyWorld (fun w => with_now (now w + Z.max 0 ms) w) ;;
  w ← getWorld ;
  modifyWorld
    (with_timers (filter (fun e => ¬ (e.2.1 ≤ now w)) (timers w))) ;;
  foldr (fun e k => runTimer e.2.2 ;; k) (mret tt)
    (map_to_list (filter (fun e => e.2.1 ≤ now w) (timers w))).

(** Modelled from the spec: what [useMergedConfig(copyable)] hands to a
    render after the first.  The hook is not among the sources.  The
    specification (3, Data Model) has the normalization "idempotent given
    the same input prop", and the source counts on a stable result when it
    lists [ellipsisConfig], which comes from the same hook, among the
    dependencies of the [useMemo] of [cssEllipsis]: while the prop is the
    same, the hook hands back the object it built before, [kept], with
    whatever [onCopyClick] has stored in it; when the prop changes, it
    builds the object anew.  An object prop is the same when it is the
    same value: the model does not tell an object from an equal one. *)
Definition useMergedConfig_next (previous current : ConfigProp CopyConfig.t)
    (kept : CopyConfig.t) : CopyConfig.t :=
  if bool_decide (current = previous) then kept
  else snd (useMergedConfig current CopyConfig.empty).

(** A render with the props [p']: the hooks run again. *)
Definition rerender (p' : BlockProps) (w : World) : World :=
  with_props p'
    (with_copyConfig
       (useMergedConfig_next (copyable (props w)) (copyable p') (copyConfig w))
       w).

(** A handler that changed a state value causes a render, with the props
    as they are. *)
Definition commit (before : World) (r : unit * World * list Effect)
    : World * list Effect :=
  let '(_, w, out) := r in
  (if bool_decide (hooks w = hooks before) then w else rerender (props w) w,
   out).

(** The handler that an event runs.  Handlers are those of the latest
    render: every change of a state value is followed by a render
    ([commit]), so the hook values a handler has captured are the current
    ones. *)
Definition handle (env : Env) (e : Event) (w : World) : M unit :=
  let p := props w in
  let c := hooks w in
  match e with
  | EvRender p' => modifyWorld (rerender p')
  | EvEditClick => onEditClick p
  | EvTextClick => onTextClick p
  | EvEditSave value => onEditChange p value
  | EvEditCancel => onEditCancel p
  | EvCopyClick => onCopyClick p
  | EvExpandClick => onExpandClick p
  | EvResize offsetWidth => onResize offsetWidth
  | EvJsEllipsis jsEllipsis => onJsEllipsis p c jsEllipsis
  | EvLayout textEle => nativeEllipsisEffect env p c textEle
  | EvAdvance ms => advance ms
  | EvUnmount => cleanCopyId ;; modifyWorld (with_mounted false)
  end.

(** One step; an unmounted instance is gone and takes no more steps. *)
Definition step (env : Env) (e : Event) (w : World) : World * list Effect :=
  if mounted w then commit w (handle env e w w) else (w, []).

Fixpoint run (env : Env) (es : list Event) (w : World)
    : World * list Effect :=
  match es with
  | [] => (w, [])
  | e :: rest =>
      let '(w1, out1) := step env e w in
      let '(w2, out2) := run env rest w1 in
      (w2, out1 ++ out2)
  end.

(** The first render of an instance, at time [t0], when the host's next
    timer identifier is [id0]. *)
Definition mount (p : BlockProps) (t0 : Z) (id0 : nat) : World :=
  {| props := p; hooks := initialHooks; copyIdRef := None;
     copyConfig := mergedCopyConfig p; mounted := true; now := t0;
     timers := ∅; nextTimerId := id0 |}.

Inductive reachable (env : Env) : World -> Prop :=
| reachable_mount p t0 id0 : reachable env (mount p t0 id0)
| reachable_step e w : reachable env w -> reachable env (step env e w).1.

(** ** Invariants and notions used in the statements *)

(** The only pending timeout, if any, is the one [copyIdRef] holds, and
    identifiers in use are below the host's next one. *)
Definition timers_owned (w : World) : Prop :=
  (forall id t, timers w !! id = Some t -> copyIdRef w = Some id) /\
  (forall id, copyIdRef w = Some id -> (id < nextTimerId w)%nat).

(** The configuration object a render holds agrees with the props on
    [onCopy] and on a configured copy text; where no text is configured it
    may hold a text that [onCopyClick] stored earlier. *)
Definition copyConfig_kept (w : World) : Prop :=
  CopyConfig.onCopy (copyConfig w) = CopyConfig.onCopy (mergedCopyConfig (props w)) /\
  (forall s, CopyConfig.text (mergedCopyConfig (props w)) = Some s ->
             CopyConfig.text (copyConfig w) = Some s).

(** The text a copy should write, in the words of the specification: the
    explicitly configured text, else the rendered text content. *)
Definition textToCopy (p : BlockProps) : string :=
  match copyable p with
  | PropObject cfg =>
      match CopyConfig.text cfg with
      | Some s => s
      | None => js_String (children p)
      end
  | _ => js_String (children p)
  end.

(** A feature that rules out CSS-native truncation is configured, in terms
    of the props: the [ellipsis] object has a suffix, an [onEllipsis]
    callback or [expandable] set, or [editable] or [copyable] is enabled. *)
Definition nativeBlocked (p : BlockProps) : Prop :=
  (exists ec, ellipsis p = PropObject ec /\
     (EllipsisConfig.suffix ec <> None \/
      EllipsisConfig.onEllipsis ec <> None \/
      EllipsisConfig.expandable ec = Some true)) \/
  propTruthy (editable p) = true \/
  propTruthy (copyable p) = true.

(** The same five tests as [cssEllipsis] makes them. *)
Definition blockingTests (p : BlockProps) : bool :=
  bool_decide (EllipsisConfig.suffix (ellipsisConfig p) <> None)
  || bool_decide (is_Some (EllipsisConfig.onEllipsis (ellipsisConfig p)))
  || truthy (EllipsisConfig.expandable (ellipsisConfig p))
  || enableEdit p
  || enableCopy p.

(** ** Sample inputs *)

Definition plainProps (e : ConfigProp EllipsisConfig.t) : BlockProps :=
  {| children := RText "Ant Design"; editable := PropUndefined;
     copyable := PropUndefined; ellipsis := e;
     decorations := noDecorations; onClick := None |}.

Definition copyProps (kids : ReactNode) (cfg : ConfigProp CopyConfig.t)
    : BlockProps :=
  {| children := kids; editable := PropUndefined; copyable := cfg;
     ellipsis := PropUndefined; decorations := noDecorations;
     onClick := None |}.

Definition editProps (cfg : ConfigProp EditConfig.t) : BlockProps :=
  {| children := RText "Ant Design"; editable := cfg;
     copyable := PropUndefined; ellipsis := PropUndefined;
     decorations := noDecorations; onClick := None |}.

Definition rowsConfig (n : option Z) : EllipsisConfig.t :=
  {| EllipsisConfig.rows := n; EllipsisConfig.expandable := None;
     EllipsisConfig.suffix := None; EllipsisConfig.symbol := None;
     EllipsisConfig.onExpand := None; EllipsisConfig.onEllipsis := None |}.

Definition allSupported : Env :=
  {| isLineClampSupport := true; isTextOverflowSupport := true |}.

Definition suffixConfig : EllipsisConfig.t :=
  {| EllipsisConfig.rows := Some 1; EllipsisConfig.expandable := None;
     EllipsisConfig.suffix := Some "--"; EllipsisConfig.symbol := None;
     EllipsisConfig.onExpand := None; EllipsisConfig.onEllipsis := None |}.

(** ** Further definitions *)

(** The node under all the element wrappers. *)
Fixpoint unwrap (n : ReactNode) : ReactNode :=
  match n with
  | RElement _ child => unwrap child
  | _ => n
  end.

(** How many decoration flags are set. *)
Definition decorationCount (props : Decorations) : nat :=
  length (filter (fun flag : bool => flag = true)
            (map truthy
               [strong props; underline props; del props; code props;
                mark props; keyboard props; italic props])).

(** The values that the [tooltips] and [icon] options of [copyable] hold:
    a node, possibly a boolean, or an array of them.  Numbers are left
    out; an element is known by the name of its component. *)
Inductive JsNode : Type :=
| JBool (b : bool)
| JUndefined
| JNull
| JText (s : string)
| JElement (name : string)
| JArray (items : list JsNode).

(** JavaScript truthiness: [false], [undefined], [null] and the empty
    string are falsy; objects, arrays included, are truthy. *)
Definition jsTruthy (v : JsNode) : bool :=
  match v with
  | JBool b => b
  | JUndefined | JNull => false
  | JText s => negb (bool_decide (s = EmptyString))
  | JElement _ | JArray _ => true
  end.

(** [array[i]]: [undefined] beyond the end. *)
Definition item (l : list JsNode) (i : nat) : JsNode :=
  default JUndefined (l !! i).

(** [toList]: an array is returned as it is, anything else becomes the
    only item of a new array. *)
Definition toList (val : JsNode) : list JsNode :=
  match val with
  | JArray items => items
  | _ => [val]
  end.

(** [getNode(dom, defaultNode, needDom)]; the last line is
    [dom || (needDom && defaultNode)]. *)
Definition getNode (dom defaultNode : JsNode) (needDom : option bool)
    : JsNode :=
  match dom with
  | JBool true | JUndefined => defaultNode
  | _ =>
      if jsTruthy dom then dom
      else match needDom with
           | Some true => defaultNode
           | Some false => JBool false
           | None => JUndefined
           end
  end.

(** The strings of [useLocaleReceiver('Text')]. *)
Module TextLocale.
Record t : Type := {
  edit : string;
  copy : string;
  copied : string;
  expand : string;
}.
End TextLocale.

(** What [renderCopy] puts on the copy button: the tooltip title, the
    [aria-label], whether the success class is set, and the icon. *)
Record CopyButton : Type := {
  copyTitle : JsNode;
  copyAriaLabel : string;
  copySuccess : bool;
  copyIcon : JsNode;
}.

(** The body of [renderCopy] past its [enableCopy] test; [tooltips] and
    [icon] are the two options of [copyConfig] it reads, [isCopied] the
    [copied] state. *)
Definition renderCopyButton (textLocale : TextLocale.t)
    (tooltips icon : JsNode) (isCopied : bool) : CopyButton :=
  let tooltipNodes := toList tooltips in
  let iconNodes := toList icon in
  let title :=
    if isCopied
    then getNode (item tooltipNodes 1) (JText (TextLocale.copied textLocale)) None
    else getNode (item tooltipNodes 0) (JText (TextLocale.copy textLocale)) None in
  let systemStr :=
    if isCopied then TextLocale.copied textLocale
    else TextLocale.copy textLocale in
  let ariaLabel :=
    match title with
    | JText s => s
    | _ => systemStr
    end in
  {| copyTitle := title;
     copyAriaLabel := ariaLabel;
     copySuccess := isCopied;
     copyIcon :=
       if isCopied
       then getNode (item iconNodes 1) (JElement "CheckOutlined") (Some true)
       else getNode (item iconNodes 0) (JElement "CopyOutlined") (Some true) |}.

(** Which event a given effect can come from. *)
Definition caused_by (e : Event) (eff : Effect) : Prop :=
  match eff with
  | PreventDefault => e = EvEditClick \/ e = EvTextClick \/ e = EvCopyClick
  | ClipboardCopy _ => e = EvCopyClick
  | Call_onStart => e = EvEditClick \/ e = EvTextClick
  | Call_onChange value => e = EvEditSave value
  | Call_onCancel => e = EvEditCancel
  | Call_onCopy => e = EvCopyClick
  | Call_onExpand => e = EvExpandClick
  | Call_onEllipsis ellipsis => e = EvJsEllipsis ellipsis
  | Call_onClick => e = EvTextClick
  end.

(** While [copied] is shown on a mounted instance, one timeout is pending,
    due later than now and at most 3000 ms from now. *)
Definition copied_pending (w : World) : Prop :=
  mounted w = true ->
  copied (hooks w) = true ->
  exists id due,
    timers w = {[ id := (due, ResetCopied) ]} /\ now w < due <= now w + 3000.

Definition editIconConfig (t : option (list TriggerType)) : EditConfig.t :=
  {| EditConfig.editing := None; EditConfig.onStart := Some tt;
     EditConfig.onChange := Some tt; EditConfig.onCancel := Some tt;
     EditConfig.onEnd := None; EditConfig.triggerType := t |}.

Definition clickProps (cfg : ConfigProp EditConfig.t) : BlockProps :=
  {| children := RText "Ant Design"; editable := cfg;
     copyable := PropUndefined; ellipsis := PropUndefined;
     decorations := noDecorations; onClick := Some tt |}.

Definition sampleLocale : TextLocale.t :=
  {| TextLocale.edit := "Edit"; TextLocale.copy := "Copy";
     TextLocale.copied := "Copied"; TextLocale.expand := "Expand" |}.

(** * Properties *)

(** ** Decoration wrapper *)

Lemma wrapAll_app (l1 l2 : list string) (content : ReactNode) :
  wrapAll (l1 ++ l2) content = wrapAll l2 (wrapAll l1 content).
Proof. unfold wrapAll. apply fold_left_app. Qed.

Lemma wrap_wrapAll (needed : option bool) (tag : string) (content : ReactNode) :
  wrap needed tag content =
  wrapAll (if truthy needed then [tag] else []) content.
Proof. unfold wrap. destruct (truthy needed); reflexivity. Qed.

Lemma layers_wrapAll (tags : list string) (content : ReactNode) :
  layers (wrapAll tags content) = rev tags ++ layers content.
Proof.
  revert content. induction tags as [|tag tags IH]; intros content.
  - reflexivity.
  - change (wrapAll (tag :: tags) content)
      with (wrapAll tags (RElement tag content)).
    rewrite IH. simpl. rewrite <- app_assoc. reflexivity.
Qed.

Lemma wrapperDecorations_wrapAll (props : Decorations) (content : ReactNode) :
  wrapperDecorations props content = wrapAll (decorationTags props) content.
Proof.
  unfold wrapperDecorations, decorationTags.
  rewrite !wrapAll_app, <- !wrap_wrapAll. reflexivity.
Qed.

(** C1, the claim as stated fails: with [strong] and [italic] set the
    result is the [i] element around the [strong] element, not the
    [strong] element around the [i] element. *)
Lemma wrapperDecorations_strong_italic_not_strong_outer :
  wrapperDecorations strongItalic (RText "Ant Design")
    = RElement "i" (RElement "strong" (RText "Ant Design")) /\
  wrapperDecorations strongItalic (RText "Ant Design")
    <> RElement "strong" (RElement "i" (RText "Ant Design")).
Proof. split; [reflexivity | discriminate]. Qed.

(** C1, amended: for every set of decoration flags [wrapperDecorations]
    applies the wrappers in the fixed order strong, u, del, code, mark, kbd,
    i, each one around the result of the previous ones; so the tags around
    the content, read from the outside in, are the requested ones in the
    reverse of that order, and with [strong] and [italic] set the result
    nests as italic-outer, strong-inner. *)
Theorem wrapperDecorations_order (props : Decorations) (content : ReactNode) :
  wrapperDecorations props content = wrapAll (decorationTags props) content /\
  layers (wrapperDecorations props content)
    = rev (decorationTags props) ++ layers content /\
  wrapperDecorations strongItalic content
    = RElement "i" (RElement "strong" content).
Proof.
  split; [apply wrapperDecorations_wrapAll|].
  split; [|reflexivity].
  rewrite wrapperDecorations_wrapAll. apply layers_wrapAll.
Qed.

(** ** Ellipsis decision *)

Lemma cssEllipsis_unfold (env : Env) (p : BlockProps) (h : Hooks) :
  cssEllipsis env p h =
  if negb (mergedEnableEllipsis p h) || blockingTests p then false
  else if rows p =? 1 then isTextOverflowSupport env
  else isLineClampSupport env.
Proof.
  unfold cssEllipsis, blockingTests.
  rewrite <- !orb_assoc. reflexivity.
Qed.

Lemma enableEllipsis_truthy (p : BlockProps) :
  enableEllipsis p = propTruthy (ellipsis p).
Proof. reflexivity. Qed.

Lemma nativeBlocked_tests (p : BlockProps) :
  nativeBlocked p <-> blockingTests p = true.
Proof.
  unfold nativeBlocked, blockingTests, ellipsisConfig, enableEdit, enableCopy,
    useMergedConfig.
  rewrite !orb_true_iff, !bool_decide_eq_true. simpl.
  destruct (ellipsis p) as [|b|[r e s y x o]]; simpl.
  - split.
    + intros [(ec & Hec & _) | H]; [discriminate Hec | tauto].
    + intros [[[[H | [? H]] | H] | H] | H]; try tauto; discriminate H.
  - split.
    + intros [(ec & Hec & _) | H]; [discriminate Hec | tauto].
    + intros [[[[H | [? H]] | H] | H] | H]; try tauto; discriminate H.
  - unfold orElse. split.
    + intros [(ec & Hec & H) | H]; [|tauto].
      injection Hec as <-. simpl in H.
      destruct H as [H | [H | H]].
      * destruct s; [|congruence]. left; left; left; left. discriminate.
      * destruct o; [|congruence]. left; left; left; right. eauto.
      * subst e. left; left; right. reflexivity.
    + intros [[[[H | H] | H] | H] | H]; try tauto; left; eexists;
        (split; [reflexivity|]); simpl.
      * left. destruct s; congruence.
      * right; left. destruct o; [discriminate|].
        destruct H as [? H]; discriminate H.
      * right; right. destruct e as [[|]|]; simpl in H; congruence.
Qed.

Lemma mergedEnableEllipsis_true (p : BlockProps) (h : Hooks) :
  propTruthy (ellipsis p) = true -> expanded h = false ->
  mergedEnableEllipsis p h = true.
Proof.
  intros He Hx. unfold mergedEnableEllipsis.
  rewrite enableEllipsis_truthy, He, Hx. reflexivity.
Qed.

(** C3: with ellipsis enabled and not expanded, a configured suffix, an
    [onEllipsis] callback, [expandable], an enabled [editable] or an enabled
    [copyable] makes [cssEllipsis] false whatever the row count and the
    environment: no native style is selected and the measuring helper is
    enabled. *)
Theorem blockers_force_measured_ellipsis
    (env : Env) (p : BlockProps) (h : Hooks) :
  propTruthy (ellipsis p) = true ->
  expanded h = false ->
  nativeBlocked p ->
  cssEllipsis env p h = false /\
  cssTextOverflow env p h = false /\
  cssLineClamp env p h = false /\
  enabledMeasure env p h = true /\
  resizeDisabled env p h = false.
Proof.
  intros He Hx Hb.
  apply nativeBlocked_tests in Hb.
  pose proof (mergedEnableEllipsis_true p h He Hx) as Hm.
  assert (Hcss : cssEllipsis env p h = false).
  { rewrite cssEllipsis_unfold, Hm, Hb. reflexivity. }
  unfold cssTextOverflow, cssLineClamp, enabledMeasure, resizeDisabled.
  rewrite Hcss, Hm, !andb_false_r. repeat split; reflexivity.
Qed.

Lemma blockers_force_measured_ellipsis_witness :
  cssEllipsis allSupported (plainProps (PropObject suffixConfig)) initialHooks
    = false /\
  enabledMeasure allSupported (plainProps (PropObject suffixConfig)) initialHooks
    = true.
Proof.
  destruct (blockers_force_measured_ellipsis allSupported
              (plainProps (PropObject suffixConfig)) initialHooks)
    as (H1 & _ & _ & H2 & _).
  - reflexivity.
  - reflexivity.
  - left. exists suffixConfig. split; [reflexivity|]. left. discriminate.
  - split; [exact H1 | exact H2].
Defined.

(** Without a blocking feature the decision depends on the row count and
    the environment only. *)
Lemma cssEllipsis_unblocked (env : Env) (p : BlockProps) (h : Hooks) :
  propTruthy (ellipsis p) = true ->
  expanded h = false ->
  ~ nativeBlocked p ->
  cssEllipsis env p h =
  if rows p =? 1 then isTextOverflowSupport env else isLineClampSupport env.
Proof.
  intros He Hx Hb.
  rewrite nativeBlocked_tests in Hb. apply not_true_is_false in Hb.
  rewrite cssEllipsis_unfold, (mergedEnableEllipsis_true p h He Hx), Hb.
  reflexivity.
Qed.

(** For a row count of at least one the three ways of truncating are
    selected as the specification describes. *)
Lemma native_selection_from_one_row (env : Env) (p : BlockProps) (h : Hooks) :
  propTruthy (ellipsis p) = true ->
  expanded h = false ->
  ~ nativeBlocked p ->
  (cssTextOverflow env p h = true <->
     rows p = 1 /\ isTextOverflowSupport env = true) /\
  (cssLineClamp env p h = true <->
     1 < rows p /\ isLineClampSupport env = true) /\
  (1 <= rows p ->
   enabledMeasure env p h
     = negb (cssTextOverflow env p h || cssLineClamp env p h)).
Proof.
  intros He Hx Hb.
  pose proof (mergedEnableEllipsis_true p h He Hx) as Hm.
  pose proof (cssEllipsis_unblocked env p h He Hx Hb) as Hcss.
  unfold cssTextOverflow, cssLineClamp, enabledMeasure.
  rewrite Hcss, Hm. simpl.
  destruct (Z.eqb_spec (rows p) 1) as [H1 | H1];
    destruct (Z.ltb_spec 1 (rows p)) as [H2 | H2]; simpl;
    repeat split; try lia; try tauto; try (intros [? ?]; lia);
    try discriminate; try (intros _; rewrite ?orb_false_r; reflexivity).
Qed.

(** Below one row, where line-clamp is supported, [cssEllipsis] is true
    although neither native style applies, so nothing measures either. *)
Lemma native_selection_below_one_row (env : Env) (p : BlockProps) (h : Hooks) :
  propTruthy (ellipsis p) = true ->
  expanded h = false ->
  ~ nativeBlocked p ->
  rows p < 1 ->
  cssTextOverflow env p h = false /\
  cssLineClamp env p h = false /\
  enabledMeasure env p h = negb (isLineClampSupport env).
Proof.
  intros He Hx Hb Hr.
  pose proof (mergedEnableEllipsis_true p h He Hx) as Hm.
  pose proof (cssEllipsis_unblocked env p h He Hx Hb) as Hcss.
  unfold cssTextOverflow, cssLineClamp, enabledMeasure.
  rewrite Hcss, Hm. simpl.
  destruct (Z.eqb_spec (rows p) 1) as [H1 | H1]; [lia|].
  destruct (Z.ltb_spec 1 (rows p)) as [H2 | H2]; [lia|].
  repeat split; reflexivity.
Qed.

(** C4, at the input [ellipsis = { rows: 0 }] with no other feature, in an
    environment that supports both styles: ellipsis is enabled, neither
    native style is selected, and script-measured truncation is not
    selected either. *)
Theorem zero_rows_selects_no_truncation :
  mergedEnableEllipsis (plainProps (PropObject (rowsConfig (Some 0)))) initialHooks
    = true /\
  blockingTests (plainProps (PropObject (rowsConfig (Some 0)))) = false /\
  cssEllipsis allSupported
    (plainProps (PropObject (rowsConfig (Some 0)))) initialHooks = true /\
  cssTextOverflow allSupported
    (plainProps (PropObject (rowsConfig (Some 0)))) initialHooks = false /\
  cssLineClamp allSupported
    (plainProps (PropObject (rowsConfig (Some 0)))) initialHooks = false /\
  enabledMeasure allSupported
    (plainProps (PropObject (rowsConfig (Some 0)))) initialHooks = false.
Proof. repeat split; reflexivity. Qed.

(** C9: when ellipsis is enabled and no row count is configured ([ellipsis]
    is [true], or an object without [rows]), [rows] is 1: the text element
    gets the single-line class while not expanded, and where no blocking
    feature is configured the native single-line style is selected exactly
    when the environment supports text-overflow, the multi-line one never. *)
Theorem rows_defaults_to_one (env : Env) (p : BlockProps) (h : Hooks) :
  (ellipsis p = PropBool true \/
   exists ec, ellipsis p = PropObject ec /\ EllipsisConfig.rows ec = None) ->
  rows p = 1 /\
  (expanded h = false ->
   (mergedEnableEllipsis p h && (rows p =? 1)) = true /\
   (~ nativeBlocked p ->
    cssTextOverflow env p h = isTextOverflowSupport env /\
    cssLineClamp env p h = false /\
    enabledMeasure env p h = negb (isTextOverflowSupport env))).
Proof.
  intros Hcfg.
  assert (He : propTruthy (ellipsis p) = true).
  { destruct Hcfg as [-> | (ec & -> & _)]; reflexivity. }
  assert (Hr : rows p = 1).
  { unfold rows, ellipsisConfig, useMergedConfig.
    destruct Hcfg as [-> | (ec & -> & Hrows)]; simpl; [reflexivity|].
    rewrite Hrows. reflexivity. }
  split; [exact Hr|]. intros Hx.
  pose proof (mergedEnableEllipsis_true p h He Hx) as Hm.
  rewrite Hm, Hr. split; [reflexivity|]. intros Hb.
  pose proof (cssEllipsis_unblocked env p h He Hx Hb) as Hcss.
  unfold cssTextOverflow, cssLineClamp, enabledMeasure.
  rewrite Hcss, Hm, Hr. simpl. repeat split; reflexivity.
Qed.

Lemma rows_defaults_to_one_witness :
  rows (plainProps (PropBool true)) = 1 /\
  cssTextOverflow allSupported (plainProps (PropBool true)) initialHooks = true.
Proof.
  destruct (rows_defaults_to_one allSupported (plainProps (PropBool true))
              initialHooks) as [H1 H2].
  - left. reflexivity.
  - split; [exact H1|].
    destruct (H2 eq_refl) as [_ H3].
    destruct H3 as (H4 & _ & _).
    + rewrite nativeBlocked_tests. discriminate.
    + exact H4.
Defined.

(** ** Running the handlers *)

Ltac unfold_handlers :=
  unfold step, commit, handle, onTextClick, onEditClick, onEditChange,
    onEditCancel, onCopyClick, onExpandClick, onResize, onJsEllipsis,
    nativeEllipsisEffect, triggerEdit, cleanCopyId, clearTimeout, setTimeout,
    callOpt, runTimer, setEditing, setCopied, setExpanded, setIsJsEllipsis,
    setIsNativeEllipsis, setEllipsisWidth, modifyHooks, modifyWorld, getWorld,
    emit, mbind, M_bind, mret, M_ret, rerender, useMergedConfig_next in *.

Ltac split_cond :=
  match goal with
  | |- context [match ?x with Some _ => _ | None => _ end] => destruct x eqn:?
  | |- context [match ?x with RunOnEditClick => _ | RunPropsOnClick => _ end] =>
      destruct x eqn:?
  | |- context [if ?b then _ else _] => destruct b eqn:?
  end.

Ltac exec := unfold_handlers; simpl; repeat (split_cond; simpl).

(** Closes a goal from a membership in a list that does not hold. *)
Ltac no_member H :=
  exfalso; simpl in H;
  repeat (apply elem_of_cons in H as [H | H]; [discriminate H|]);
  apply elem_of_nil in H; exact H.

Lemma step_unmounted (env : Env) (e : Event) (w : World) :
  mounted w = false -> step env e w = (w, []).
Proof. intros Hm. unfold step. rewrite Hm. reflexivity. Qed.

(** Running the callbacks of the due timeouts: [copied] is reset when
    there is one, and nothing else changes. *)
Lemma runTimers_run (l : list (nat * (Z * TimerCallback))) (w : World) :
  foldr (fun e k => runTimer e.2.2 ;; k) (mret tt) l w =
  (tt, match l with [] => w | _ => (setCopied false w).1.2 end, []).
Proof.
  revert w. induction l as [|[id [t []]] l IH]; intros w; [reflexivity|].
  simpl. unfold mbind, M_bind. simpl. rewrite IH.
  destruct l; reflexivity.
Qed.

Lemma advance_run (ms : Z) (w : World) :
  advance ms w =
  (tt,
   (let w1 :=
      with_timers
        (filter (fun e => ¬ (e.2.1 ≤ now w + Z.max 0 ms)) (timers w))
        (with_now (now w + Z.max 0 ms) w) in
    match map_to_list
            (filter (fun e => e.2.1 ≤ now w + Z.max 0 ms) (timers w)) with
    | [] => w1
    | _ => (setCopied false w1).1.2
    end),
   []).
Proof.
  unfold advance, mbind, M_bind, modifyWorld, getWorld. simpl.
  rewrite runTimers_run. reflexivity.
Qed.

(** ** Expansion *)

Lemma mergedEnableEllipsis_expanded (p : BlockProps) (h : Hooks) :
  expanded h = true -> mergedEnableEllipsis p h = false.
Proof.
  intros Hx. unfold mergedEnableEllipsis. rewrite Hx. apply andb_false_r.
Qed.

Lemma step_expanded (env : Env) (e : Event) (w : World) :
  expanded (hooks (step env e w).1) = expanded (hooks w) \/
  (e = EvExpandClick /\ mounted w = true /\
   expanded (hooks (step env e w).1) = true).
Proof.
  destruct (mounted w) eqn:Hm; [|left; rewrite step_unmounted; auto].
  destruct e as [p'| | | | | | | | |[[ow sw]|]|ms|].
  12: { left. unfold step. rewrite Hm.
        change (handle env (EvAdvance ms) w w) with (advance ms w).
        rewrite advance_run.
        unfold commit, setCopied, modifyHooks, modifyWorld, rerender,
          useMergedConfig_next. simpl.
        repeat (split_cond; simpl); reflexivity. }
  all: exec; auto.
Qed.

Lemma run_expanded (env : Env) (es : list Event) (w : World) :
  expanded (hooks w) = true -> expanded (hooks (run env es w).1) = true.
Proof.
  revert w. induction es as [|e es IH]; intros w Hx; [exact Hx|].
  simpl. destruct (step env e w) as [w1 out1] eqn:Hs.
  specialize (IH w1). destruct (run env es w1) as [w2 out2]. simpl in *.
  apply IH.
  destruct (step_expanded env e w) as [H | (_ & _ & H)];
    rewrite Hs in H; simpl in H; congruence.
Qed.

(** C2: [expanded] only ever changes on the expand control, which sets it
    to [true] and calls [onExpand] when one is configured; and from a
    render in which it is [true], whatever happens next (resizes,
    re-renders with other props, measurements, time), it stays [true] and
    ellipsis stays disabled: no native style, no measuring. *)
Theorem expanded_is_one_way (env : Env) :
  (forall e w,
     expanded (hooks (step env e w).1) = expanded (hooks w) \/
     (e = EvExpandClick /\ expanded (hooks (step env e w).1) = true)) /\
  (forall w,
     mounted w = true ->
     expanded (hooks (step env EvExpandClick w).1) = true /\
     (step env EvExpandClick w).2 =
       match EllipsisConfig.onExpand (ellipsisConfig (props w)) with
       | Some _ => [Call_onExpand]
       | None => []
       end) /\
  (forall es w,
     expanded (hooks w) = true ->
     let w' := (run env es w).1 in
     expanded (hooks w') = true /\
     mergedEnableEllipsis (props w') (hooks w') = false /\
     cssEllipsis env (props w') (hooks w') = false /\
     enabledMeasure env (props w') (hooks w') = false /\
     isMergedEllipsis env (props w') (hooks w') = false).
Proof.
  split; [|split].
  - intros e w. destruct (step_expanded env e w) as [H | (H1 & _ & H2)]; auto.
  - intros w Hm. unfold step. rewrite Hm. exec; auto.
  - intros es w Hx w'.
    pose proof (run_expanded env es w Hx) as Hx'. fold w' in Hx'.
    pose proof (mergedEnableEllipsis_expanded (props w') (hooks w') Hx') as Hm.
    unfold cssEllipsis, enabledMeasure, isMergedEllipsis.
    rewrite Hm. auto.
Qed.

(** ** Copy acknowledgement and its timer *)

Lemma step_copy_click (env : Env) (w : World) :
  mounted w = true ->
  let w1 := (step env EvCopyClick w).1 in
  copied (hooks w1) = true /\
  mounted w1 = true /\
  now w1 = now w /\
  props w1 = props w /\
  copyIdRef w1 = Some (nextTimerId w) /\
  nextTimerId w1 = S (nextTimerId w) /\
  timers w1 =
    <[nextTimerId w := (now w + 3000, ResetCopied)]>
      (match copyIdRef w with
       | Some i => delete i (timers w)
       | None => timers w
       end).
Proof.
  intros Hm. unfold step. rewrite Hm.
  exec; repeat split; first [reflexivity | assumption | congruence].
Qed.

Lemma owned_cleared (w : World) :
  timers_owned w ->
  match copyIdRef w with
  | Some i => delete i (timers w)
  | None => timers w
  end = ∅.
Proof.
  intros [Hown _]. apply map_empty. intros j.
  destruct (copyIdRef w) as [i|] eqn:Href.
  - destruct (decide (i = j)) as [<- | Hne].
    + apply lookup_delete_eq.
    + rewrite lookup_delete_ne by exact Hne.
      destruct (timers w !! j) as [t|] eqn:Hj; [|reflexivity].
      apply Hown in Hj. congruence.
  - destruct (timers w !! j) as [t|] eqn:Hj; [|reflexivity].
    apply Hown in Hj. congruence.
Qed.

Lemma step_timers_owned (env : Env) (e : Event) (w : World) :
  timers_owned w -> timers_owned (step env e w).1.
Proof.
  intros Hinv.
  destruct (mounted w) eqn:Hm; [|rewrite step_unmounted; auto].
  destruct e as [p'| | | | | | | | |[[ow sw]|]|ms|].
  6: { destruct (step_copy_click env w Hm)
         as (_ & _ & _ & _ & Href & Hnext & Ht).
       unfold timers_owned. rewrite Href, Hnext, Ht, (owned_cleared w Hinv).
       split.
       - intros id t Hl. apply lookup_insert_Some in Hl.
         destruct Hl as [[<- _] | [_ Hl]]; [reflexivity|].
         rewrite lookup_empty in Hl. discriminate.
       - intros id [= <-]. lia. }
  11: { unfold step. rewrite Hm.
        change (handle env (EvAdvance ms) w w) with (advance ms w).
        rewrite advance_run.
        destruct Hinv as [Hown Hfresh].
        unfold commit, setCopied, modifyHooks, modifyWorld, rerender,
          useMergedConfig_next, timers_owned. simpl.
        repeat (split_cond; simpl); (split; [|exact Hfresh]);
          intros id t Hl; apply map_lookup_filter_Some_1_1 in Hl;
          eapply Hown; exact Hl. }
  11: { destruct Hinv as [Hown Hfresh].
        unfold step. rewrite Hm. unfold timers_owned. unfold_handlers. simpl.
        destruct (copyIdRef w) as [i|] eqn:Href; simpl; split_cond; simpl.
        all: rewrite ?Href; (split; [|exact Hfresh]); intros id t Hl.
        all: try (apply lookup_delete_Some in Hl; destruct Hl as [_ Hl]).
        all: eapply Hown; exact Hl. }
  all: destruct Hinv as [Hown Hfresh]; unfold step; rewrite Hm;
    unfold timers_owned; exec; (split; assumption).
Qed.

Lemma mount_timers_owned (p : BlockProps) (t0 : Z) (id0 : nat) :
  timers_owned (mount p t0 id0).
Proof.
  split; simpl.
  - intros id t Hl. rewrite lookup_empty in Hl. discriminate.
  - intros id [=].
Qed.

Lemma reachable_timers_owned (env : Env) (w : World) :
  reachable env w -> timers_owned w.
Proof.
  induction 1 as [p t0 id0 | e w _ IH].
  - apply mount_timers_owned.
  - apply step_timers_owned, IH.
Qed.

Lemma step_advance_singleton (env : Env) (w : World) (id : nat) (due ms : Z) :
  mounted w = true ->
  timers w = {[ id := (due, ResetCopied) ]} ->
  let w1 := (step env (EvAdvance ms) w).1 in
  now w1 = now w + Z.max 0 ms /\
  mounted w1 = true /\
  nextTimerId w1 = nextTimerId w /\
  (now w + Z.max 0 ms < due ->
   copied (hooks w1) = copied (hooks w) /\ timers w1 = timers w) /\
  (due <= now w + Z.max 0 ms ->
   copied (hooks w1) = false /\ timers w1 = ∅).
Proof.
  intros Hm Ht. unfold step. rewrite Hm.
  change (handle env (EvAdvance ms) w w) with (advance ms w).
  rewrite advance_run, Ht, !map_filter_singleton.
  repeat case_decide; simpl in * |-; try tauto.
  all: rewrite ?(map_to_list_singleton (M := gmap nat) id (due, ResetCopied)),
         ?(map_to_list_empty (M := gmap nat) (A := Z * TimerCallback)).
  all: unfold commit, setCopied, modifyHooks, modifyWorld, rerender,
         useMergedConfig_next; simpl.
  all: split_cond; simpl; (repeat split; auto; intros; lia).
Qed.

Lemma step_unmount_timers (env : Env) (w : World) :
  mounted w = true -> timers_owned w ->
  timers (step env EvUnmount w).1 = ∅ /\ mounted (step env EvUnmount w).1 = false.
Proof.
  intros Hm Hinv. pose proof (owned_cleared w Hinv) as Hc.
  unfold step. rewrite Hm. unfold_handlers. simpl.
  destruct (copyIdRef w); simpl; split_cond; simpl; auto.
Qed.

Lemma run_cons_world (env : Env) (e : Event) (es : list Event) (w : World) :
  (run env (e :: es) w).1 = (run env es (step env e w).1).1.
Proof.
  simpl. destruct (step env e w) as [w1 out1]. simpl.
  destruct (run env es w1) as [w2 out2]. reflexivity.
Qed.

Lemma step_copy_click_owned (env : Env) (w : World) :
  mounted w = true -> timers_owned w ->
  let w1 := (step env EvCopyClick w).1 in
  copied (hooks w1) = true /\
  mounted w1 = true /\
  now w1 = now w /\
  nextTimerId w1 = S (nextTimerId w) /\
  timers w1 = {[ nextTimerId w := (now w + 3000, ResetCopied) ]}.
Proof.
  intros Hm Hinv w1.
  destruct (step_copy_click env w Hm) as (Hc & Hm1 & Hn & _ & _ & Hid & Ht).
  fold w1 in Hc, Hm1, Hn, Hid, Ht.
  rewrite (owned_cleared w Hinv), insert_empty in Ht. auto.
Qed.

(** C5: a copy trigger in any state the instance can be in sets [copied]
    at once and leaves exactly one pending timeout, due 3000 ms later,
    whatever was pending before; [copied] holds until that time and is
    reset when it comes; a second trigger [ms] later, before expiry, again
    leaves a single timeout, due 3000 ms after the second trigger, so the
    first deadline no longer resets anything; and unmounting leaves no
    timeout pending. *)
Theorem copy_acknowledgement_window (env : Env) (w : World) :
  reachable env w ->
  mounted w = true ->
  let w1 := (step env EvCopyClick w).1 in
  (copied (hooks w1) = true /\
   timers w1 = {[ nextTimerId w := (now w + 3000, ResetCopied) ]}) /\
  (forall ms, 0 <= ms < 3000 ->
     let w2 := (step env (EvAdvance ms) w1).1 in
     copied (hooks w2) = true /\ timers w2 = timers w1) /\
  (forall ms, 3000 <= ms ->
     let w2 := (step env (EvAdvance ms) w1).1 in
     copied (hooks w2) = false /\ timers w2 = ∅) /\
  (forall ms ms', 0 <= ms < 3000 ->
     let w3 := (run env [EvAdvance ms; EvCopyClick] w1).1 in
     let w4 := (step env (EvAdvance ms') w3).1 in
     copied (hooks w3) = true /\
     timers w3 = {[ nextTimerId w1 := (now w + ms + 3000, ResetCopied) ]} /\
     (0 <= ms' < 3000 -> copied (hooks w4) = true) /\
     (3000 <= ms' -> copied (hooks w4) = false /\ timers w4 = ∅)) /\
  timers (step env EvUnmount w1).1 = ∅ /\
  timers (step env EvUnmount w).1 = ∅.
Proof.
  intros Hreach Hm w1.
  pose proof (reachable_timers_owned env w Hreach) as Hinv.
  pose proof (step_timers_owned env EvCopyClick w Hinv) as Hinv1.
  destruct (step_copy_click_owned env w Hm Hinv) as (Hc1 & Hm1 & Hn1 & Hid1 & Ht1).
  fold w1 in Hinv1, Hc1, Hm1, Hn1, Hid1, Ht1.
  split; [auto|].
  split.
  { intros ms Hms w2.
    destruct (step_advance_singleton env w1 _ _ ms Hm1 Ht1)
      as (_ & _ & _ & Hbefore & _).
    destruct Hbefore as [Hc Ht]; [lia|]. fold w2 in Hc, Ht.
    split; congruence. }
  split.
  { intros ms Hms w2.
    destruct (step_advance_singleton env w1 _ _ ms Hm1 Ht1)
      as (_ & _ & _ & _ & Hafter).
    apply Hafter. lia. }
  split.
  { intros ms ms' Hms w3 w4.
    pose (w2 := (step env (EvAdvance ms) w1).1).
    assert (Hw3 : w3 = (step env EvCopyClick w2).1).
    { unfold w3. rewrite !run_cons_world. reflexivity. }
    destruct (step_advance_singleton env w1 _ _ ms Hm1 Ht1)
      as (Hn2 & Hm2 & Hid2 & Hbefore & _).
    fold w2 in Hn2, Hm2, Hid2.
    pose proof (step_timers_owned env (EvAdvance ms) w1 Hinv1) as Hinv2.
    fold w2 in Hinv2.
    destruct (step_copy_click_owned env w2 Hm2 Hinv2)
      as (Hc3 & Hm3 & Hn3 & _ & Ht3).
    rewrite <- Hw3 in Hc3, Hm3, Hn3, Ht3.
    rewrite Hid2, Hn2, Hn1 in Ht3.
    replace (Z.max 0 ms) with ms in Ht3 by lia.
    split; [exact Hc3|]. split; [exact Ht3|].
    destruct (step_advance_singleton env w3 _ _ ms' Hm3 Ht3)
      as (_ & _ & _ & Hb & Ha).
    fold w4 in Hb, Ha. rewrite Hn3, Hn2, Hn1 in Hb, Ha.
    split.
    - intros Hms'. destruct Hb as [Hc _]; [lia|]. congruence.
    - intros Hms'. apply Ha. lia. }
  split.
  - apply step_unmount_timers; assumption.
  - apply step_unmount_timers; assumption.
Qed.

Lemma copy_acknowledgement_window_witness :
  copied (hooks (step allSupported EvCopyClick
                   (mount (copyProps (RText "Ant Design") (PropBool true)) 0 0)).1)
    = true /\
  timers (step allSupported EvCopyClick
            (mount (copyProps (RText "Ant Design") (PropBool true)) 0 0)).1
    = {[ 0%nat := (3000, ResetCopied) ]}.
Proof.
  pose proof (copy_acknowledgement_window allSupported
                (mount (copyProps (RText "Ant Design") (PropBool true)) 0 0)
                (reachable_mount _ _ _ _) eq_refl) as H.
  destruct H as [H _]. exact H.
Defined.

Lemma expanded_is_one_way_witness :
  expanded (hooks (run allSupported
                     [EvResize 320; EvRender (plainProps (PropObject suffixConfig));
                      EvJsEllipsis true; EvAdvance 5000]
                     (step allSupported EvExpandClick
                        (mount (plainProps (PropBool true)) 0 0)).1).1) = true.
Proof.
  destruct (expanded_is_one_way allSupported) as (_ & Hclick & Hstay).
  destruct (Hclick (mount (plainProps (PropBool true)) 0 0) eq_refl)
    as [Hx _].
  destruct (Hstay [EvResize 320; EvRender (plainProps (PropObject suffixConfig));
                   EvJsEllipsis true; EvAdvance 5000] _ Hx) as [H _].
  exact H.
Defined.

(** ** Copied text *)

Lemma orEmpty_Some (s : string) : orEmpty (Some s) = s.
Proof. unfold orEmpty. case_bool_decide; congruence. Qed.

Lemma mergedCopyConfig_fields (p : BlockProps) :
  CopyConfig.text (mergedCopyConfig p) =
    match copyable p with
    | PropObject cfg => CopyConfig.text cfg
    | _ => None
    end /\
  CopyConfig.onCopy (mergedCopyConfig p) =
    match copyable p with
    | PropObject cfg => CopyConfig.onCopy cfg
    | _ => None
    end.
Proof.
  unfold mergedCopyConfig, useMergedConfig.
  destruct (copyable p) as [|b|[t o]]; simpl; auto.
  destruct t, o; auto.
Qed.

Lemma textToCopy_merged (p : BlockProps) :
  textToCopy p =
  match CopyConfig.text (mergedCopyConfig p) with
  | Some s => s
  | None => js_String (children p)
  end.
Proof.
  destruct (mergedCopyConfig_fields p) as [-> _]. unfold textToCopy.
  destruct (copyable p); reflexivity.
Qed.

Lemma reachable_run (env : Env) (es : list Event) (w : World) :
  reachable env w -> reachable env (run env es w).1.
Proof.
  revert w. induction es as [|e es IH]; intros w Hw; [exact Hw|].
  rewrite run_cons_world. apply IH, reachable_step, Hw.
Qed.

(** What a copy trigger outputs, in terms of the configuration object it
    finds. *)
Lemma step_copy_click_output (env : Env) (w : World) :
  mounted w = true ->
  (step env EvCopyClick w).2 =
  [PreventDefault;
   ClipboardCopy
     (orEmpty (Some (match CopyConfig.text (copyConfig w) with
                     | Some s => s
                     | None => js_String (children (props w))
                     end)))] ++
  match CopyConfig.onCopy (copyConfig w) with
  | Some _ => [Call_onCopy]
  | None => []
  end.
Proof.
  intros Hm. unfold step. rewrite Hm. unfold_handlers. simpl.
  destruct (CopyConfig.text (copyConfig w)) as [s|] eqn:Ht;
    destruct (CopyConfig.onCopy (copyConfig w)) eqn:Hc; simpl;
    rewrite ?Ht, ?Hc; simpl;
    destruct (copyIdRef w); simpl; rewrite ?Ht, ?Hc; simpl;
    try split_cond; reflexivity.
Qed.

Lemma step_copy_click_config (env : Env) (w : World) :
  mounted w = true ->
  copyConfig (step env EvCopyClick w).1 =
  {| CopyConfig.text :=
       Some (match CopyConfig.text (copyConfig w) with
             | Some s => s
             | None => js_String (children (props w))
             end);
     CopyConfig.onCopy := CopyConfig.onCopy (copyConfig w) |}.
Proof.
  intros Hm. unfold step. rewrite Hm.
  destruct w as [p h r [[s|] o] m t tm nid]; simpl in *;
    unfold_handlers; simpl;
    destruct o, r; simpl;
    repeat (first
              [ rewrite (bool_decide_eq_true_2 _ (eq_refl (copyable p)))
              | split_cond ]; simpl);
    reflexivity.
Qed.

Lemma mergedCopyConfig_copyable (p p' : BlockProps) :
  copyable p' = copyable p -> mergedCopyConfig p' = mergedCopyConfig p.
Proof. intros H. unfold mergedCopyConfig. rewrite H. reflexivity. Qed.

Lemma rerender_copyConfig_kept (p' : BlockProps) (w : World) :
  copyConfig_kept w -> copyConfig_kept (rerender p' w).
Proof.
  intros [Hcb Htext]. unfold copyConfig_kept, rerender, useMergedConfig_next.
  simpl. case_bool_decide as Heq.
  - rewrite (mergedCopyConfig_copyable _ _ Heq). split; assumption.
  - split; [reflexivity | auto].
Qed.

Lemma step_copyConfig_kept (env : Env) (e : Event) (w : World) :
  copyConfig_kept w -> copyConfig_kept (step env e w).1.
Proof.
  intros Hinv.
  destruct (mounted w) eqn:Hm; [|rewrite step_unmounted; auto].
  destruct e as [p'| | | | | | | | |[[ow sw]|]|ms|].
  1: { unfold step. rewrite Hm. unfold commit, handle, modifyWorld.
       simpl. split_cond; simpl; repeat apply rerender_copyConfig_kept;
         exact Hinv. }
  5: { destruct Hinv as [Hcb Htext]. unfold copyConfig_kept.
       rewrite (step_copy_click_config env w Hm).
       destruct (step_copy_click env w Hm) as (_ & _ & _ & -> & _).
       simpl. split; [exact Hcb|].
       intros s Hs. rewrite (Htext s Hs). reflexivity. }
  10: { unfold step. rewrite Hm.
        change (handle env (EvAdvance ms) w w) with (advance ms w).
        rewrite advance_run.
        unfold commit, setCopied, modifyHooks, modifyWorld. simpl.
        repeat (split_cond; simpl);
          first [exact Hinv | apply (rerender_copyConfig_kept _ _ Hinv)]. }
  all: unfold step; rewrite Hm;
    unfold commit, handle, onTextClick, onEditClick, onEditChange,
      onEditCancel, onExpandClick, onResize, onJsEllipsis,
      nativeEllipsisEffect, triggerEdit, cleanCopyId, clearTimeout, callOpt,
      setEditing, setExpanded, setIsJsEllipsis, setIsNativeEllipsis,
      setEllipsisWidth, modifyHooks, modifyWorld, getWorld, emit, mbind,
      M_bind, mret, M_ret; simpl;
    repeat (split_cond; simpl);
    first [exact Hinv | apply (rerender_copyConfig_kept _ _ Hinv)].
Qed.

Lemma reachable_copyConfig_kept (env : Env) (w : World) :
  reachable env w -> copyConfig_kept w.
Proof.
  induction 1 as [p t0 id0 | e w _ IH].
  - split; [reflexivity | auto].
  - apply step_copyConfig_kept, IH.
Qed.

(** A configured copy text is what every copy trigger writes, and [onCopy]
    is called after the write. *)
Lemma copy_writes_configured_text (env : Env) (w : World) (s : string) :
  reachable env w ->
  mounted w = true ->
  CopyConfig.text (mergedCopyConfig (props w)) = Some s ->
  (step env EvCopyClick w).2 =
  [PreventDefault; ClipboardCopy s] ++
  match CopyConfig.onCopy (mergedCopyConfig (props w)) with
  | Some _ => [Call_onCopy]
  | None => []
  end.
Proof.
  intros Hreach Hm Hs.
  destruct (reachable_copyConfig_kept env w Hreach) as [Hcb Htext].
  rewrite (step_copy_click_output env w Hm), orEmpty_Some, Hcb, (Htext s Hs).
  reflexivity.
Qed.

(** Without a configured text, the text a copy trigger writes is the one
    the configuration object holds: after a copy and a render that leaves
    the [copyable] prop as it is, the next copy writes the children of the
    earlier render, whatever the children are now. *)
Lemma copy_writes_kept_text (env : Env) (w : World) (p' : BlockProps) :
  mounted w = true ->
  CopyConfig.text (copyConfig w) = None ->
  copyable p' = copyable (props w) ->
  (step env EvCopyClick (run env [EvCopyClick; EvRender p'] w).1).2 =
  [PreventDefault; ClipboardCopy (js_String (children (props w)))] ++
  match CopyConfig.onCopy (copyConfig w) with
  | Some _ => [Call_onCopy]
  | None => []
  end.
Proof.
  intros Hm Ht Hp.
  rewrite !run_cons_world. simpl run.
  pose proof (step_copy_click_config env w Hm) as Hcfg.
  destruct (step_copy_click env w Hm) as (_ & Hm1 & _ & Hp1 & _).
  set (w1 := (step env EvCopyClick w).1) in *.
  assert (Hstep : (step env (EvRender p') w1).1 = rerender p' w1).
  { unfold step. rewrite Hm1. unfold commit, handle, modifyWorld. simpl.
    rewrite bool_decide_eq_true_2 by reflexivity. reflexivity. }
  simpl. rewrite Hstep.
  rewrite step_copy_click_output by exact Hm1.
  unfold rerender, useMergedConfig_next. simpl.
  rewrite Hp1, (bool_decide_eq_true_2 _ Hp), Hcfg, Ht. simpl.
  case_bool_decide as He; [rewrite He|]; reflexivity.
Qed.

(** C7, at the input: [copyable] is [true], the children are "first", the
    copy control is clicked, the component is rendered again with the
    children "second" and [copyable] still [true], and the control is
    clicked again.  The text to copy is then "second"; both clicks write
    "first". *)
Theorem copy_after_children_change_writes_old_text :
  textToCopy (copyProps (RText "second") (PropBool true)) = "second" /\
  props (run allSupported
           [EvCopyClick; EvRender (copyProps (RText "second") (PropBool true))]
           (mount (copyProps (RText "first") (PropBool true)) 0 0)).1
    = copyProps (RText "second") (PropBool true) /\
  (run allSupported
     [EvCopyClick; EvRender (copyProps (RText "second") (PropBool true));
      EvCopyClick]
     (mount (copyProps (RText "first") (PropBool true)) 0 0)).2
    = [PreventDefault; ClipboardCopy "first";
       PreventDefault; ClipboardCopy "first"].
Proof. repeat split; reflexivity. Qed.

(** ** Edit mode *)

Lemma editConfig_fields (p : BlockProps) (ec : EditConfig.t) :
  editable p = PropObject ec -> editConfig p = ec.
Proof.
  intros H. unfold editConfig, useMergedConfig. rewrite H.
  destruct ec as [[] [] [] [] [] []]; reflexivity.
Qed.

Lemma step_props (env : Env) (e : Event) (w : World) :
  (forall p', e <> EvRender p') -> props (step env e w).1 = props w.
Proof.
  intros Hne.
  destruct (mounted w) eqn:Hm; [|rewrite step_unmounted; auto].
  unfold step. rewrite Hm.
  destruct e as [p'| | | | | | | | |[[ow sw]|]|ms|].
  1: { exfalso. eapply Hne. reflexivity. }
  11: { change (handle env (EvAdvance ms) w w) with (advance ms w).
        rewrite advance_run.
        unfold commit, setCopied, modifyHooks, modifyWorld, rerender,
          useMergedConfig_next. simpl.
        repeat (split_cond; simpl); reflexivity. }
  all: exec; reflexivity.
Qed.

(** C6: when the [editable] object supplies [editing], the value a render
    shows is the supplied one, in every state the handlers can produce:
    the inline editor is rendered exactly when the supplied value is
    [true]; no event other than a render with new props changes the shown
    value, and after any run a render shows the value its props supply;
    the edit handlers still call [onStart], [onChange] with the new text,
    and [onCancel] when these are configured. *)
Theorem controlled_editing_mirrors
    (env : Env) (w : World) (ec : EditConfig.t) (v : bool) :
  editable (props w) = PropObject ec ->
  EditConfig.editing ec = Some v ->
  (forall h, editing (props w) h = v) /\
  ((exists value, render env (props w) (hooks w) = EditableView value)
     <-> v = true) /\
  (forall e, (forall p', e <> EvRender p') ->
     editing (props (step env e w).1) (hooks (step env e w).1) = v) /\
  (forall es ec' v',
     let w' := (run env es w).1 in
     editable (props w') = PropObject ec' ->
     EditConfig.editing ec' = Some v' ->
     editing (props w') (hooks w') = v') /\
  (mounted w = true ->
   (step env EvEditClick w).2 =
     PreventDefault ::
     match EditConfig.onStart ec with Some _ => [Call_onStart] | None => [] end /\
   (forall value,
      (step env (EvEditSave value) w).2 =
        match EditConfig.onChange ec with
        | Some _ => [Call_onChange value]
        | None => []
        end) /\
   (step env EvEditCancel w).2 =
     match EditConfig.onCancel ec with Some _ => [Call_onCancel] | None => [] end).
Proof.
  intros Hobj Hed.
  assert (Hmirror : forall p h ec0 v0,
            editable p = PropObject ec0 -> EditConfig.editing ec0 = Some v0 ->
            editing p h = v0).
  { intros p h ec0 v0 H1 H2. unfold editing.
    rewrite (editConfig_fields p ec0 H1), H2. reflexivity. }
  split; [intros h; eapply Hmirror; eassumption|].
  split.
  { unfold render. rewrite (Hmirror _ (hooks w) _ _ Hobj Hed).
    destruct v; split; eauto; try discriminate. intros [value Hv]. discriminate Hv. }
  split.
  { intros e Hne. rewrite (step_props env e w Hne).
    eapply Hmirror; eassumption. }
  split.
  { intros es ec' v' w' H1 H2. eapply Hmirror; eassumption. }
  intros Hm. pose proof (editConfig_fields _ _ Hobj) as Hcfg.
  unfold step. rewrite Hm. unfold_handlers. simpl. rewrite Hcfg.
  repeat split; intros; repeat (split_cond; simpl); reflexivity.
Qed.

Lemma controlled_editing_mirrors_witness :
  editing
    (editProps (PropObject
       {| EditConfig.editing := Some false; EditConfig.onStart := Some tt;
          EditConfig.onChange := None; EditConfig.onCancel := None;
          EditConfig.onEnd := None; EditConfig.triggerType := None |}))
    (hooks (step allSupported EvEditClick
              (mount (editProps (PropObject
                 {| EditConfig.editing := Some false;
                    EditConfig.onStart := Some tt;
                    EditConfig.onChange := None; EditConfig.onCancel := None;
                    EditConfig.onEnd := None;
                    EditConfig.triggerType := None |})) 0 0)).1)
  = false.
Proof.
  destruct (controlled_editing_mirrors allSupported
              (mount (editProps (PropObject
                 {| EditConfig.editing := Some false;
                    EditConfig.onStart := Some tt;
                    EditConfig.onChange := None; EditConfig.onCancel := None;
                    EditConfig.onEnd := None;
                    EditConfig.triggerType := None |})) 0 0)
              _ false eq_refl eq_refl) as [H _].
  apply H.
Defined.





(** ** Measured ellipsis *)

(** C10: a measurement report equal to the [isJsEllipsis] the render read
    changes nothing and calls nothing; [onEllipsis] is called only with a
    reported value that differs from it, and then it is called, once,
    when it is configured. *)
Theorem onEllipsis_only_on_change (env : Env) (w : World) (jsEllipsis : bool) :
  (isJsEllipsis (hooks w) = jsEllipsis ->
   step env (EvJsEllipsis jsEllipsis) w = (w, [])) /\
  (forall reported,
     Call_onEllipsis reported ∈ (step env (EvJsEllipsis jsEllipsis) w).2 ->
     reported = jsEllipsis /\ isJsEllipsis (hooks w) <> jsEllipsis) /\
  (mounted w = true ->
   isJsEllipsis (hooks w) <> jsEllipsis ->
   isJsEllipsis (hooks (step env (EvJsEllipsis jsEllipsis) w).1) = jsEllipsis /\
   (step env (EvJsEllipsis jsEllipsis) w).2 =
     match EllipsisConfig.onEllipsis (ellipsisConfig (props w)) with
     | Some _ => [Call_onEllipsis jsEllipsis]
     | None => []
     end).
Proof.
  split; [|split].
  - intros Heq.
    destruct (mounted w) eqn:Hm; [|apply step_unmounted; exact Hm].
    unfold step. rewrite Hm. unfold_handlers. simpl.
    rewrite (bool_decide_eq_false_2 (isJsEllipsis (hooks w) <> jsEllipsis))
      by tauto.
    simpl. destruct w as [p h r cfg m t tm nid].
    destruct h as [ie cp ex js nat' wd]. simpl in *. subst js.
    rewrite bool_decide_eq_true_2 by reflexivity. reflexivity.
  - intros reported Hin.
    destruct (mounted w) eqn:Hm;
      [|rewrite step_unmounted in Hin by exact Hm; no_member Hin].
    unfold step in Hin. rewrite Hm in Hin. unfold_handlers. simpl in Hin.
    destruct (bool_decide (isJsEllipsis (hooks w) <> jsEllipsis)) eqn:Hd;
      simpl in Hin.
    + apply bool_decide_eq_true in Hd. split; [|exact Hd].
      destruct (EllipsisConfig.onEllipsis (ellipsisConfig (props w)));
        simpl in Hin; [|no_member Hin].
      apply list_elem_of_singleton in Hin. congruence.
    + no_member Hin.
  - intros Hm Hne. unfold step. rewrite Hm. unfold_handlers. simpl.
    rewrite (bool_decide_eq_true_2 (isJsEllipsis (hooks w) <> jsEllipsis))
      by exact Hne.
    destruct (EllipsisConfig.onEllipsis (ellipsisConfig (props w)));
      simpl; split_cond; simpl; split; reflexivity.
Qed.

Lemma onEllipsis_only_on_change_witness :
  step allSupported (EvJsEllipsis false)
    (mount (plainProps (PropObject suffixConfig)) 0 0)
  = (mount (plainProps (PropObject suffixConfig)) 0 0, []).
Proof.
  destruct (onEllipsis_only_on_change allSupported
              (mount (plainProps (PropObject suffixConfig)) 0 0) false)
    as [H _].
  apply H. reflexivity.
Defined.

(** * Further properties *)

(** ** Decorations keep the content *)

Lemma unwrap_wrapAll (tags : list string) (content : ReactNode) :
  unwrap (wrapAll tags content) = unwrap content.
Proof.
  revert content. induction tags as [|tag tags IH]; intros content.
  - reflexivity.
  - change (wrapAll (tag :: tags) content)
      with (wrapAll tags (RElement tag content)).
    rewrite IH. reflexivity.
Qed.

Lemma decorationTags_length (props : Decorations) :
  length (decorationTags props) = decorationCount props.
Proof.
  unfold decorationTags, decorationCount. simpl map.
  destruct (truthy (strong props)), (truthy (underline props)),
    (truthy (del props)), (truthy (code props)), (truthy (mark props)),
    (truthy (keyboard props)), (truthy (italic props)); reflexivity.
Qed.

(** X1: [wrapperDecorations] only adds wrappers: the node under them is
    the one under the wrappers of the content, and the number of wrappers
    added is the number of flags that are set, at most seven; a flag that
    is [false] or [undefined] adds none. *)
Theorem wrapperDecorations_keeps_content
    (props : Decorations) (content : ReactNode) :
  unwrap (wrapperDecorations props content) = unwrap content /\
  length (layers (wrapperDecorations props content))
    = (decorationCount props + length (layers content))%nat /\
  (decorationCount props <= 7)%nat.
Proof.
  rewrite wrapperDecorations_wrapAll, unwrap_wrapAll, layers_wrapAll.
  rewrite length_app, length_rev, decorationTags_length.
  repeat split; try reflexivity.
  unfold decorationCount. simpl map.
  destruct (truthy (strong props)), (truthy (underline props)),
    (truthy (del props)), (truthy (code props)), (truthy (mark props)),
    (truthy (keyboard props)), (truthy (italic props)); simpl; lia.
Qed.

(** ** Tooltip and icon of the copy button *)

Lemma getNode_required (dom defaultNode : JsNode) :
  jsTruthy defaultNode = true ->
  jsTruthy (getNode dom defaultNode (Some true)) = true /\
  (getNode dom defaultNode (Some true) = dom \/
   getNode dom defaultNode (Some true) = defaultNode).
Proof.
  intros Hd. unfold getNode.
  destruct dom as [[|]| | |s|name|items]; simpl; auto.
  destruct (bool_decide (s = EmptyString)) eqn:Hs; simpl; auto.
  rewrite Hs. auto.
Qed.

(** X2: when a node is required ([needDom]) and the default is truthy,
    [getNode] yields a truthy node, the given one or the default; when
    none is required, a falsy value other than [undefined] ([false],
    [null], the empty string) yields a falsy result: it switches the
    default off. *)
Theorem getNode_presence (dom defaultNode : JsNode) (needDom : option bool) :
  (needDom = Some true ->
   jsTruthy defaultNode = true ->
   jsTruthy (getNode dom defaultNode needDom) = true /\
   (getNode dom defaultNode needDom = dom \/
    getNode dom defaultNode needDom = defaultNode)) /\
  (needDom <> Some true ->
   jsTruthy dom = false ->
   dom <> JUndefined ->
   jsTruthy (getNode dom defaultNode needDom) = false).
Proof.
  split.
  - intros -> Hd. apply getNode_required, Hd.
  - intros Hn Hf Hu. unfold getNode.
    destruct dom as [[|]| | |s|name|items]; simpl in *;
      try discriminate; try congruence;
      rewrite ?Hf; destruct needDom as [[|]|]; simpl; congruence.
Qed.

Lemma getNode_presence_witness :
  jsTruthy (getNode (JBool false) (JElement "CopyOutlined") (Some true)) = true /\
  jsTruthy (getNode (JBool false) (JText "Copy") None) = false.
Proof.
  destruct (getNode_presence (JBool false) (JElement "CopyOutlined") (Some true))
    as [H1 _].
  destruct (getNode_presence (JBool false) (JText "Copy") None) as [_ H2].
  split.
  - apply H1; reflexivity.
  - apply H2; [discriminate | reflexivity | discriminate].
Defined.

Lemma toList_single (val : JsNode) :
  (forall items, val <> JArray items) ->
  toList val = [val].
Proof. intros H. destruct val; try reflexivity. exfalso. eapply H; eauto. Qed.

(** X3: a [tooltips] or [icon] option that is not an array has a say
    before the copy only: once [copied] is set, the title is the locale's
    "copied" string whatever [tooltips] is ([false] included), and the icon
    is the default check icon whatever [icon] is. *)
Theorem copy_button_after_copy
    (textLocale : TextLocale.t) (tooltips icon : JsNode) :
  ((forall items, tooltips <> JArray items) ->
   copyTitle (renderCopyButton textLocale tooltips icon true)
     = JText (TextLocale.copied textLocale) /\
   copyAriaLabel (renderCopyButton textLocale tooltips icon true)
     = TextLocale.copied textLocale) /\
  ((forall items, icon <> JArray items) ->
   copyIcon (renderCopyButton textLocale tooltips icon true)
     = JElement "CheckOutlined").
Proof.
  split; intros H; unfold renderCopyButton; simpl;
    rewrite (toList_single _ H); auto.
Qed.

Lemma copy_button_after_copy_witness :
  copyTitle (renderCopyButton sampleLocale (JBool false) JUndefined true)
    = JText "Copied" /\
  copyTitle (renderCopyButton sampleLocale (JBool false) JUndefined false)
    = JUndefined.
Proof.
  destruct (copy_button_after_copy sampleLocale (JBool false) JUndefined)
    as [H _].
  split; [|reflexivity].
  apply H. discriminate.
Defined.

Lemma getNode_title_text (dom : JsNode) (fallback s : string) :
  fallback <> EmptyString ->
  getNode dom (JText fallback) None = JText s ->
  s <> EmptyString.
Proof.
  intros Hf. unfold getNode.
  destruct dom as [[|]| | |t|name|items]; simpl;
    try (intros [= <-]; exact Hf); try discriminate.
  destruct (bool_decide (t = EmptyString)) eqn:Ht; simpl; [discriminate|].
  intros [= <-]. apply bool_decide_eq_false in Ht. exact Ht.
Qed.

(** X4: whatever the [tooltips] and [icon] options hold, in both states
    the copy button shows an icon (a truthy node), its success class
    follows [copied], and its [aria-label] is the title when the title is
    a string and the locale's string for the state otherwise; with
    non-empty locale strings the [aria-label] is never empty. *)
Theorem copy_button_labelled
    (textLocale : TextLocale.t) (tooltips icon : JsNode) (isCopied : bool) :
  let button := renderCopyButton textLocale tooltips icon isCopied in
  jsTruthy (copyIcon button) = true /\
  copySuccess button = isCopied /\
  (copyTitle button = JText (copyAriaLabel button) \/
   ((forall s, copyTitle button <> JText s) /\
    copyAriaLabel button =
      if isCopied then TextLocale.copied textLocale
      else TextLocale.copy textLocale)) /\
  (TextLocale.copy textLocale <> EmptyString ->
   TextLocale.copied textLocale <> EmptyString ->
   copyAriaLabel button <> EmptyString).
Proof.
  intros button. split; [|split; [reflexivity|]].
  - unfold button, renderCopyButton. simpl.
    destruct isCopied;
      match goal with
      | |- jsTruthy (getNode ?d ?e (Some true)) = true =>
          destruct (getNode_required d e eq_refl) as [Ht _]; exact Ht
      end.
  - assert (Hcases :
      copyTitle button = JText (copyAriaLabel button) \/
      ((forall s, copyTitle button <> JText s) /\
       copyAriaLabel button =
         if isCopied then TextLocale.copied textLocale
         else TextLocale.copy textLocale)).
    { unfold button, renderCopyButton. simpl.
      destruct isCopied;
        match goal with
        | |- context [getNode ?d ?e ?n] =>
            destruct (getNode d e n); auto; right; split; auto; discriminate
        end. }
    split; [exact Hcases|]. intros Hc Hd.
    destruct Hcases as [Ht | [_ ->]]; [|destruct isCopied; assumption].
    revert Ht. generalize (copyAriaLabel button). intros s Ht.
    unfold button, renderCopyButton in Ht. simpl in Ht.
    destruct isCopied;
      [eapply (getNode_title_text _ _ s Hd) | eapply (getNode_title_text _ _ s Hc)];
      exact Ht.
Qed.

Lemma copy_button_labelled_witness :
  copyAriaLabel (renderCopyButton sampleLocale (JBool false) JUndefined false)
    <> EmptyString.
Proof.
  destruct (copy_button_labelled sampleLocale (JBool false) JUndefined false)
    as (_ & _ & _ & H).
  apply H; discriminate.
Defined.

(** ** The text element *)

(** X5: the resize observer is switched on exactly when the measuring
    helper is: its [disabled] flag is the negation of [enabledMeasure], in
    every render. *)
Theorem observer_follows_measure (env : Env) (p : BlockProps) (h : Hooks) :
  resizeDisabled env p h = negb (enabledMeasure env p h) /\
  (forall v, render env p h = Typography v ->
     observerDisabled v = negb (measureEnabled v)).
Proof.
  assert (H : resizeDisabled env p h = negb (enabledMeasure env p h)).
  { unfold resizeDisabled, enabledMeasure.
    destruct (mergedEnableEllipsis p h), (cssEllipsis env p h); reflexivity. }
  split; [exact H|].
  intros v Hv. unfold render in Hv.
  destruct (editing p h); [discriminate|]. injection Hv as <-. exact H.
Qed.

Lemma observer_follows_measure_witness :
  exists v,
    render allSupported (plainProps (PropObject suffixConfig)) initialHooks
      = Typography v /\
    observerDisabled v = negb (measureEnabled v).
Proof.
  destruct (observer_follows_measure allSupported
              (plainProps (PropObject suffixConfig)) initialHooks) as [_ H].
  eexists. split; [reflexivity|]. apply H. reflexivity.
Defined.

Lemma cssEllipsis_true (env : Env) (p : BlockProps) (h : Hooks) :
  cssEllipsis env p h = true ->
  mergedEnableEllipsis p h = true /\ blockingTests p = false.
Proof.
  rewrite cssEllipsis_unfold.
  destruct (mergedEnableEllipsis p h), (blockingTests p); simpl;
    auto; discriminate.
Qed.

Lemma blockingTests_false (p : BlockProps) :
  blockingTests p = false ->
  EllipsisConfig.suffix (ellipsisConfig p) = None /\
  truthy (EllipsisConfig.expandable (ellipsisConfig p)) = false /\
  enableEdit p = false /\
  enableCopy p = false.
Proof.
  unfold blockingTests. rewrite !orb_false_iff.
  intros [[[[Hs _] Hx] He] Hc]. repeat split; auto.
  apply bool_decide_eq_false in Hs.
  destruct (EllipsisConfig.suffix (ellipsisConfig p)); [|reflexivity].
  exfalso. apply Hs. discriminate.
Qed.

(** X6: native truncation is selected only for a text element with
    nothing after its text: when [cssEllipsis] is true the instance is not
    expanded, no suffix is configured, and [renderOperations] yields no
    control, cut or not. *)
Theorem native_ellipsis_has_no_trailer (env : Env) (p : BlockProps) (h : Hooks) :
  cssEllipsis env p h = true ->
  expanded h = false /\
  EllipsisConfig.suffix (ellipsisConfig p) = None /\
  (forall renderExpanded, renderOperations p renderExpanded = []) /\
  (forall needEllipsis, snd (renderSuffix p needEllipsis) = []).
Proof.
  intros Hcss. destruct (cssEllipsis_true env p h Hcss) as [Hm Hb].
  destruct (blockingTests_false p Hb) as (Hs & Hx & He & Hc).
  assert (Hops : forall b, renderOperations p b = []).
  { intros b. unfold renderOperations, renderExpand, renderEdit, renderCopy.
    rewrite Hx, He, Hc. destruct b; reflexivity. }
  repeat split; auto.
  unfold mergedEnableEllipsis in Hm. apply andb_true_iff in Hm.
  destruct Hm as [_ Hm]. destruct (expanded h); [discriminate | reflexivity].
Qed.

Lemma native_ellipsis_has_no_trailer_witness :
  renderOperations (plainProps (PropBool true)) true = [].
Proof.
  destruct (native_ellipsis_has_no_trailer allSupported
              (plainProps (PropBool true)) initialHooks eq_refl)
    as (_ & _ & H & _).
  apply H.
Defined.

(** X7: the class names of the text element agree with each other: the
    native single-line class comes with the single-line class and without
    a line clamp; the native multi-line class comes with a
    [WebkitLineClamp] equal to a row count above one and without the
    single-line classes; either comes with the ellipsis class and with the
    observer and the measuring switched off; and no [WebkitLineClamp] is
    set without the multi-line class. *)
Theorem class_names_agree
    (env : Env) (p : BlockProps) (h : Hooks) (v : TypographyView) :
  render env p h = Typography v ->
  (classEllipsisSingleLine v = true ->
   classSingleLine v = true /\ classEllipsis v = true /\
   classEllipsisMultipleLine v = false /\ WebkitLineClamp v = None /\
   measureEnabled v = false /\ observerDisabled v = true) /\
  (classEllipsisMultipleLine v = true ->
   WebkitLineClamp v = Some (rows p) /\ 1 < rows p /\
   classSingleLine v = false /\ classEllipsisSingleLine v = false /\
   classEllipsis v = true /\
   measureEnabled v = false /\ observerDisabled v = true) /\
  (classEllipsisMultipleLine v = false -> WebkitLineClamp v = None) /\
  (classSingleLine v = true -> classEllipsis v = true).
Proof.
  intros Hv. unfold render in Hv.
  destruct (editing p h); [discriminate|]. injection Hv as <-. simpl.
  unfold cssTextOverflow, cssLineClamp, enabledMeasure, resizeDisabled,
    mergedEnableEllipsis.
  destruct (enableEllipsis p), (expanded h), (cssEllipsis env p h);
    destruct (Z.eqb_spec (rows p) 1) as [H1 | H1];
    destruct (Z.ltb_spec 1 (rows p)) as [H2 | H2]; simpl;
    repeat split; intros; try discriminate; try reflexivity; lia.
Qed.

Lemma class_names_agree_witness :
  exists v,
    render allSupported (plainProps (PropObject (rowsConfig (Some 3))))
      initialHooks = Typography v /\
    classEllipsisMultipleLine v = true /\
    WebkitLineClamp v = Some 3.
Proof.
  eexists. split; [reflexivity|]. split; [reflexivity|].
  destruct (class_names_agree allSupported
              (plainProps (PropObject (rowsConfig (Some 3)))) initialHooks
              _ eq_refl) as (_ & H & _).
  destruct (H eq_refl) as [Hw _]. exact Hw.
Defined.

(** X8: the controls after the text come in the order expand, edit, copy,
    each at most once; the expand control is there exactly when the text
    is cut and [expandable] is set, the copy control exactly when
    [copyable] is enabled. *)
Theorem operations_order (p : BlockProps) (renderExpanded : bool) :
  renderOperations p renderExpanded
    `sublist_of` [ExpandControl; EditControl; CopyControl] /\
  (ExpandControl ∈ renderOperations p renderExpanded <->
   renderExpanded = true /\
   EllipsisConfig.expandable (ellipsisConfig p) = Some true) /\
  (CopyControl ∈ renderOperations p renderExpanded <->
   propTruthy (copyable p) = true).
Proof.
  unfold renderOperations, renderExpand, renderEdit, renderCopy, enableCopy,
    useMergedConfig. simpl.
  destruct renderExpanded,
    (EllipsisConfig.expandable (ellipsisConfig p)) as [[|]|],
    (enableEdit p), (bool_decide (TriggerIcon ∈ triggerType p)),
    (propTruthy (copyable p)); simpl.
  all: split;
    [ repeat first [ apply sublist_nil_l | apply sublist_skip
                   | apply sublist_cons ]
    | split; split;
      first [ intros H; no_member H
            | intros [H1 H2]; discriminate
            | intros H; discriminate
            | intros; repeat split; reflexivity
            | intros;
              repeat first [apply list_elem_of_here | apply list_elem_of_further] ] ].
Qed.

Lemma operations_order_witness :
  CopyControl ∈ renderOperations
                  (copyProps (RText "Ant Design") (PropBool true)) false.
Proof.
  destruct (operations_order (copyProps (RText "Ant Design") (PropBool true))
              false) as (_ & _ & H).
  apply H. reflexivity.
Defined.

(** X9: once expanded, the text element keeps the ellipsis class but has
    none of the truncation classes and no line clamp; the observer is off,
    nothing is measured, and the tooltip is told that ellipsis is neither
    enabled nor in effect. *)
Theorem expanded_view
    (env : Env) (p : BlockProps) (h : Hooks) (v : TypographyView) :
  expanded h = true ->
  render env p h = Typography v ->
  classEllipsis v = propTruthy (ellipsis p) /\
  classSingleLine v = false /\
  classEllipsisSingleLine v = false /\
  classEllipsisMultipleLine v = false /\
  WebkitLineClamp v = None /\
  observerDisabled v = true /\
  measureEnabled v = false /\
  tooltipEnabledEllipsis v = false /\
  tooltipIsEllipsis v = false.
Proof.
  intros Hx Hv. unfold render in Hv.
  destruct (editing p h); [discriminate|]. injection Hv as <-. simpl.
  pose proof (mergedEnableEllipsis_expanded p h Hx) as Hm.
  unfold cssTextOverflow, cssLineClamp, enabledMeasure, resizeDisabled,
    isMergedEllipsis, cssEllipsis.
  rewrite Hm. simpl. repeat split; reflexivity.
Qed.

Lemma expanded_view_witness :
  exists v,
    render allSupported (plainProps (PropBool true))
      (hooks (step allSupported EvExpandClick
                (mount (plainProps (PropBool true)) 0 0)).1) = Typography v /\
    classEllipsis v = true /\ classSingleLine v = false.
Proof.
  eexists. split; [reflexivity|].
  destruct (expanded_view allSupported (plainProps (PropBool true))
              (hooks (step allSupported EvExpandClick
                        (mount (plainProps (PropBool true)) 0 0)).1)
              _ eq_refl eq_refl) as (H1 & H2 & _).
  split; [exact H1 | exact H2].
Defined.

(** ** Effects and their events *)

Lemma step_output_caused (env : Env) (e : Event) (w : World) :
  Forall (caused_by e) (step env e w).2.
Proof.
  destruct (mounted w) eqn:Hm; [|rewrite step_unmounted by exact Hm; constructor].
  unfold step. rewrite Hm.
  destruct e as [p'| | | | | | | | |[[ow sw]|]|ms|].
  12: { change (handle env (EvAdvance ms) w w) with (advance ms w).
        rewrite advance_run. unfold commit. simpl. constructor. }
  all: exec; repeat (apply Forall_cons; split); try apply Forall_nil;
    simpl; auto 6.
Qed.

(** X10: every call of a user callback, every clipboard write and every
    [preventDefault] comes from its own handler: the clipboard is written
    and [onCopy] called on a copy click only; [onStart] is called on a
    click on the edit icon or on the text only; [onChange] on a save, with
    the saved text; [onCancel] on a cancel; [onExpand] on an expand click;
    [onEllipsis] on a measurement report, with the reported value;
    [preventDefault] on the three clicks that have it. *)
Theorem effects_have_their_events
    (env : Env) (e : Event) (w : World) (eff : Effect) :
  eff ∈ (step env e w).2 -> caused_by e eff.
Proof.
  intros Hin. pose proof (step_output_caused env e w) as H.
  rewrite Forall_forall in H. apply H, Hin.
Qed.

Lemma effects_have_their_events_witness :
  caused_by EvCopyClick (ClipboardCopy "Ant Design").
Proof.
  apply (effects_have_their_events allSupported EvCopyClick
           (mount (copyProps (RText "Ant Design") (PropBool true)) 0 0)).
  apply list_elem_of_further, list_elem_of_here.
Defined.

(** ** The pending reset *)

Lemma step_timer_frame (env : Env) (e : Event) (w : World) :
  e <> EvCopyClick -> (forall ms, e <> EvAdvance ms) -> e <> EvUnmount ->
  timers (step env e w).1 = timers w /\
  now (step env e w).1 = now w /\
  copied (hooks (step env e w).1) = copied (hooks w) /\
  mounted (step env e w).1 = mounted w.
Proof.
  intros H1 H2 H3.
  destruct (mounted w) eqn:Hm; [|rewrite step_unmounted; auto].
  unfold step. rewrite Hm.
  destruct e as [p'| | | | | | | | |[[ow sw]|]|ms|];
    try congruence; try (exfalso; eapply H2; reflexivity).
  all: exec; repeat split; first [reflexivity | assumption].
Qed.

Lemma step_advance_copied (env : Env) (ms : Z) (w : World) :
  copied (hooks (step env (EvAdvance ms) w).1) = true ->
  copied (hooks w) = true.
Proof.
  destruct (mounted w) eqn:Hm; [|rewrite step_unmounted; auto].
  unfold step. rewrite Hm.
  change (handle env (EvAdvance ms) w w) with (advance ms w).
  rewrite advance_run.
  unfold commit, setCopied, modifyHooks, modifyWorld, rerender,
          useMergedConfig_next. simpl.
  repeat (split_cond; simpl); auto; discriminate.
Qed.

Lemma step_copied_pending (env : Env) (e : Event) (w : World) :
  timers_owned w -> copied_pending w -> copied_pending (step env e w).1.
Proof.
  intros Hown Hinv.
  destruct (mounted w) eqn:Hm;
    [|rewrite step_unmounted by exact Hm; exact Hinv].
  destruct e as [p'| | | | | | | | |el|ms|].
  6: { intros _ _.
       destruct (step_copy_click_owned env w Hm Hown) as (_ & _ & Hn & _ & Ht).
       eexists _, _. split; [exact Ht|]. rewrite Hn. lia. }
  11: { intros Hm1. destruct (step_unmount_timers env w Hm Hown) as [_ Hm2].
        congruence. }
  10: { intros Hm1 Hc1.
        pose proof (step_advance_copied env ms w Hc1) as Hc0.
        destruct (Hinv Hm Hc0) as (id & due & Ht & Hdue).
        destruct (step_advance_singleton env w id due ms Hm Ht)
          as (Hn & _ & _ & Hbefore & Hafter).
        destruct (decide (due <= now w + Z.max 0 ms)) as [Hd | Hd].
        - destruct (Hafter Hd) as [Hcf _]. congruence.
        - destruct Hbefore as [_ Ht1]; [lia|].
          exists id, due. rewrite Ht1, Hn. split; [exact Ht | lia]. }
  all: match goal with
       | |- copied_pending (step ?en ?e ?w0).1 =>
           destruct (step_timer_frame en e w0) as (Ht & Hn & Hcp & Hmm);
             [congruence | congruence | congruence |];
             unfold copied_pending; rewrite Ht, Hn, Hcp, Hmm;
             intros _; apply Hinv; exact Hm
       end.
Qed.

Lemma reachable_copied_pending (env : Env) (w : World) :
  reachable env w -> copied_pending w.
Proof.
  induction 1 as [p t0 id0 | e w Hw IH].
  - intros _ Hc. discriminate Hc.
  - apply step_copied_pending; [apply (reachable_timers_owned env w Hw) | exact IH].
Qed.

Lemma owned_size (w : World) :
  timers_owned w -> (size (timers w) <= 1)%nat.
Proof.
  intros Hown. pose proof (owned_cleared w Hown) as Hc.
  destruct (copyIdRef w) as [i|].
  - destruct (timers w !! i) as [t|] eqn:Hi.
    + rewrite <- (insert_delete_id (timers w) i t Hi), Hc, insert_empty,
        map_size_singleton. lia.
    + rewrite delete_id in Hc by exact Hi. rewrite Hc, map_size_empty. lia.
  - rewrite Hc, map_size_empty. lia.
Qed.

(** X11: in every state an instance can reach, at most one timeout is
    pending; while a mounted instance shows [copied], exactly one is, due
    later than now and no more than 3000 ms from now; so without a new
    copy, [copied] is off again once 3000 ms have passed. *)
Theorem reset_is_always_pending (env : Env) (w : World) :
  reachable env w ->
  (size (timers w) <= 1)%nat /\
  copied_pending w /\
  (mounted w = true ->
   forall ms, 3000 <= ms ->
     copied (hooks (step env (EvAdvance ms) w).1) = false).
Proof.
  intros Hreach.
  pose proof (reachable_timers_owned env w Hreach) as Hown.
  pose proof (reachable_copied_pending env w Hreach) as Hpend.
  split; [apply owned_size, Hown|]. split; [exact Hpend|].
  intros Hm ms Hms.
  destruct (copied (hooks (step env (EvAdvance ms) w).1)) eqn:Hafter;
    [|reflexivity].
  pose proof (step_advance_copied env ms w Hafter) as Hc.
  destruct (Hpend Hm Hc) as (id & due & Ht & Hdue).
  destruct (step_advance_singleton env w id due ms Hm Ht)
    as (_ & _ & _ & _ & Hfire).
  destruct Hfire as [Hcf _]; [lia|]. congruence.
Qed.

Lemma reset_is_always_pending_witness :
  copied (hooks (run allSupported [EvCopyClick; EvAdvance 3000]
                   (mount (copyProps (RText "Ant Design") (PropBool true)) 0 0)).1)
    = false.
Proof.
  destruct (reset_is_always_pending allSupported
              (step allSupported EvCopyClick
                 (mount (copyProps (RText "Ant Design") (PropBool true)) 0 0)).1)
    as (_ & _ & H).
  - apply reachable_step, reachable_mount.
  - rewrite !run_cons_world. apply H; [reflexivity | lia].
Defined.

(** ** Which event writes which state *)

(** X12: every state value has its own writers: the edit state changes
    only on a click on the edit icon or the text, a save or a cancel;
    [copied] only on a copy click or when time passes; [isJsEllipsis] only
    on a measurement report; [isNativeEllipsis] only on a layout effect;
    the width only on a resize; the props only on a render; the pending
    timeouts only on a copy click, when time passes, or on unmount. *)
Theorem state_has_its_writers (env : Env) (e : Event) (w : World) :
  (innerEditing (hooks (step env e w).1) <> innerEditing (hooks w) ->
   e = EvEditClick \/ e = EvTextClick \/
   (exists value, e = EvEditSave value) \/ e = EvEditCancel) /\
  (copied (hooks (step env e w).1) <> copied (hooks w) ->
   e = EvCopyClick \/ exists ms, e = EvAdvance ms) /\
  (isJsEllipsis (hooks (step env e w).1) <> isJsEllipsis (hooks w) ->
   exists jsEllipsis, e = EvJsEllipsis jsEllipsis) /\
  (isNativeEllipsis (hooks (step env e w).1) <> isNativeEllipsis (hooks w) ->
   exists textEle, e = EvLayout textEle) /\
  (ellipsisWidth (hooks (step env e w).1) <> ellipsisWidth (hooks w) ->
   exists offsetWidth, e = EvResize offsetWidth) /\
  (props (step env e w).1 <> props w -> exists p', e = EvRender p') /\
  (timers (step env e w).1 <> timers w ->
   e = EvCopyClick \/ (exists ms, e = EvAdvance ms) \/ e = EvUnmount).
Proof.
  destruct (mounted w) eqn:Hm;
    [|rewrite step_unmounted by exact Hm; simpl;
      repeat split; intros H; exfalso; apply H; reflexivity].
  unfold step. rewrite Hm.
  destruct e as [p'| | | | | | | | |[[ow sw]|]|ms|].
  12: { change (handle env (EvAdvance ms) w w) with (advance ms w).
        rewrite advance_run.
        unfold commit, setCopied, modifyHooks, modifyWorld, rerender,
          useMergedConfig_next. simpl.
        repeat (split_cond; simpl); repeat split; intros H;
          first [ solve [eauto 10] | exfalso; apply H; reflexivity ]. }
  all: exec; repeat split; intros H;
    first [ solve [eauto 10] | exfalso; apply H; reflexivity ].
Qed.

Lemma state_has_its_writers_witness :
  exists offsetWidth, EvResize 320 = EvResize offsetWidth.
Proof.
  destruct (state_has_its_writers allSupported (EvResize 320)
              (mount (plainProps (PropBool true)) 0 0))
    as (_ & _ & _ & _ & H & _).
  apply H. discriminate.
Defined.

(** ** Edit mode without a supplied value *)

Lemma step_edit_events (env : Env) (w : World) :
  mounted w = true ->
  (innerEditing (hooks (step env EvEditClick w).1) = true /\
   (step env EvEditClick w).2 =
     PreventDefault ::
     match EditConfig.onStart (editConfig (props w)) with
     | Some _ => [Call_onStart]
     | None => []
     end) /\
  (forall value,
     innerEditing (hooks (step env (EvEditSave value) w).1) = false /\
     (step env (EvEditSave value) w).2 =
       match EditConfig.onChange (editConfig (props w)) with
       | Some _ => [Call_onChange value]
       | None => []
       end) /\
  (innerEditing (hooks (step env EvEditCancel w).1) = false /\
   (step env EvEditCancel w).2 =
     match EditConfig.onCancel (editConfig (props w)) with
     | Some _ => [Call_onCancel]
     | None => []
     end).
Proof.
  intros Hm. unfold step. rewrite Hm.
  repeat split; intros; exec; reflexivity.
Qed.

Lemma step_edit_cancel_hooks (env : Env) (w : World) :
  mounted w = true ->
  innerEditing (hooks w) = false ->
  hooks (step env EvEditCancel (step env EvEditClick w).1).1 = hooks w.
Proof.
  intros Hm Hi.
  assert (Hm1 : mounted (step env EvEditClick w).1 = true).
  { destruct (step_timer_frame env EvEditClick w) as (_ & _ & _ & H);
      try discriminate. congruence. }
  unfold step at 1. rewrite Hm1.
  unfold step. rewrite Hm.
  destruct w as [p h r cfg m t tm nid].
  destruct h as [ie cp ex js nat' wd]. simpl in *. subst ie.
  exec; reflexivity.
Qed.

(** X13: when the [editable] object does not supply [editing], the
    instance owns the edit state: a click on the edit control shows the
    inline editor, with the children as its value when they are a string
    and the empty string otherwise, and calls [onStart]; a save calls
    [onChange] with the text and a cancel calls [onCancel], and either
    brings the text element back; a click followed by a cancel leaves the
    state of the instance as it was. *)
Theorem owned_edit_cycle (env : Env) (w : World) :
  EditConfig.editing (editConfig (props w)) = None ->
  mounted w = true ->
  let w1 := (step env EvEditClick w).1 in
  render env (props w1) (hooks w1) =
    EditableView (match children (props w) with
                  | RText s => s
                  | _ => EmptyString
                  end) /\
  (forall value,
     let w2 := (step env (EvEditSave value) w1).1 in
     (exists v, render env (props w2) (hooks w2) = Typography v) /\
     (step env (EvEditSave value) w1).2 =
       match EditConfig.onChange (editConfig (props w)) with
       | Some _ => [Call_onChange value]
       | None => []
       end) /\
  (let w2 := (step env EvEditCancel w1).1 in
   (exists v, render env (props w2) (hooks w2) = Typography v) /\
   (step env EvEditCancel w1).2 =
     match EditConfig.onCancel (editConfig (props w)) with
     | Some _ => [Call_onCancel]
     | None => []
     end) /\
  (innerEditing (hooks w) = false ->
   hooks (step env EvEditCancel w1).1 = hooks w).
Proof.
  intros Hed Hm w1.
  assert (Hp1 : props w1 = props w) by (apply step_props; discriminate).
  assert (Hm1 : mounted w1 = true).
  { destruct (step_timer_frame env EvEditClick w) as (_ & _ & _ & H);
      try discriminate. fold w1 in H. congruence. }
  destruct (step_edit_events env w Hm) as [[Hi1 _] _]. fold w1 in Hi1.
  destruct (step_edit_events env w1 Hm1) as (_ & Hsave & Hcancel).
  rewrite Hp1 in Hsave, Hcancel.
  split.
  { unfold render, editing. rewrite Hp1, Hed. simpl. rewrite Hi1. reflexivity. }
  split.
  { intros value w2. destruct (Hsave value) as [Hi2 Hout]. fold w2 in Hi2.
    split; [|exact Hout].
    assert (Hp2 : props w2 = props w).
    { unfold w2. rewrite step_props by discriminate. exact Hp1. }
    unfold render, editing. rewrite Hp2, Hed. simpl. rewrite Hi2. eauto. }
  split.
  { intros w2. destruct Hcancel as [Hi2 Hout]. fold w2 in Hi2.
    split; [|exact Hout].
    assert (Hp2 : props w2 = props w).
    { unfold w2. rewrite step_props by discriminate. exact Hp1. }
    unfold render, editing. rewrite Hp2, Hed. simpl. rewrite Hi2. eauto. }
  intros Hi. apply step_edit_cancel_hooks; assumption.
Qed.

Lemma owned_edit_cycle_witness :
  render allSupported
    (props (step allSupported EvEditClick
              (mount (editProps (PropObject (editIconConfig None))) 0 0)).1)
    (hooks (step allSupported EvEditClick
              (mount (editProps (PropObject (editIconConfig None))) 0 0)).1)
  = EditableView "Ant Design".
Proof.
  destruct (owned_edit_cycle allSupported
              (mount (editProps (PropObject (editIconConfig None))) 0 0)
              eq_refl eq_refl) as [H _].
  exact H.
Defined.

(** X14: an [onClick] among the remaining props takes the place of the
    edit trigger on the text element: whatever [triggerType] holds, a
    click on the text then runs that [onClick], does not call [onStart]
    and leaves the instance as it is. *)
Theorem props_onClick_replaces_text_trigger
    (env : Env) (w : World) (callback : Callback) :
  onClick (props w) = Some callback ->
  mounted w = true ->
  typographyOnClick (props w) = Some RunPropsOnClick /\
  step env EvTextClick w = (w, [Call_onClick]).
Proof.
  intros Hc Hm.
  assert (Hh : typographyOnClick (props w) = Some RunPropsOnClick).
  { unfold typographyOnClick. rewrite Hc. reflexivity. }
  split; [exact Hh|].
  unfold step. rewrite Hm. unfold commit, handle, onTextClick.
  rewrite Hh. unfold emit.
  rewrite bool_decide_eq_true_2 by reflexivity. reflexivity.
Qed.

Lemma props_onClick_replaces_text_trigger_witness :
  step allSupported EvTextClick
    (mount (clickProps (PropObject (editIconConfig (Some [TriggerText])))) 0 0)
  = (mount (clickProps (PropObject (editIconConfig (Some [TriggerText])))) 0 0,
     [Call_onClick]).
Proof.
  destruct (props_onClick_replaces_text_trigger allSupported
              (mount (clickProps (PropObject (editIconConfig (Some [TriggerText]))))
                 0 0) tt eq_refl eq_refl) as [_ H].
  exact H.
Defined.

(** ** Native ellipsis detection *)

Lemma cssEllipsis_hooks (env : Env) (p : BlockProps) (h1 h2 : Hooks) :
  expanded h1 = expanded h2 -> cssEllipsis env p h1 = cssEllipsis env p h2.
Proof.
  intros H. unfold cssEllipsis, mergedEnableEllipsis. rewrite H. reflexivity.
Qed.

(** X15: the layout effect records whether the text overflows
    ([offsetWidth < scrollWidth]) exactly when native truncation is
    selected, and the tooltip is then told just that; where native
    truncation is not selected, or the element is missing, the effect
    changes nothing; it never outputs anything, whichever case it is. *)
Theorem layout_effect_detects_overflow
    (env : Env) (w : World) (offsetWidth scrollWidth : Z) :
  mounted w = true ->
  (cssEllipsis env (props w) (hooks w) = true ->
   let w1 := (step env (EvLayout (Some (offsetWidth, scrollWidth))) w).1 in
   isNativeEllipsis (hooks w1) = (offsetWidth <? scrollWidth) /\
   isMergedEllipsis env (props w1) (hooks w1) = (offsetWidth <? scrollWidth) /\
   (step env (EvLayout (Some (offsetWidth, scrollWidth))) w).2 = []) /\
  (cssEllipsis env (props w) (hooks w) = false ->
   step env (EvLayout (Some (offsetWidth, scrollWidth))) w = (w, [])) /\
  step env (EvLayout None) w = (w, []) /\
  (forall textEle, (step env (EvLayout textEle) w).2 = []).
Proof.
  intros Hm.
  assert (Hout : forall textEle, (step env (EvLayout textEle) w).2 = []).
  { intros [[ow sw]|]; unfold step; rewrite Hm; exec; reflexivity. }
  split; [|split; [|split; [|exact Hout]]].
  - intros Hcss w1.
    destruct (cssEllipsis_true env _ _ Hcss) as [Hme _].
    assert (He : enableEllipsis (props w) = true).
    { unfold mergedEnableEllipsis in Hme. apply andb_true_iff in Hme. tauto. }
    assert (Hp : props w1 = props w) by (apply step_props; discriminate).
    assert (Hx : expanded (hooks w1) = expanded (hooks w)).
    { destruct (step_expanded env (EvLayout (Some (offsetWidth, scrollWidth))) w)
        as [H | (H & _)]; [exact H | discriminate H]. }
    assert (Hn : isNativeEllipsis (hooks w1) = (offsetWidth <? scrollWidth)).
    { unfold w1, step. rewrite Hm. unfold_handlers. simpl.
      rewrite He, Hcss. simpl.
      destruct (bool_decide
                  (isNativeEllipsis (hooks w) <> (offsetWidth <? scrollWidth)))
        eqn:Hd; simpl.
      - split_cond; reflexivity.
      - apply bool_decide_eq_false in Hd.
        rewrite bool_decide_eq_true_2 by reflexivity.
        destruct (isNativeEllipsis (hooks w)), (offsetWidth <? scrollWidth);
          try reflexivity; exfalso; apply Hd; discriminate. }
    split; [exact Hn|]. split; [|apply Hout].
    unfold isMergedEllipsis.
    rewrite Hp, (cssEllipsis_hooks env (props w) _ _ Hx), Hcss.
    unfold mergedEnableEllipsis. rewrite Hx.
    unfold mergedEnableEllipsis in Hme. rewrite Hme. exact Hn.
  - intros Hcss. unfold step. rewrite Hm. unfold_handlers. simpl.
    rewrite Hcss, andb_false_r. simpl.
    rewrite bool_decide_eq_true_2 by reflexivity. reflexivity.
  - unfold step. rewrite Hm. unfold_handlers. simpl.
    rewrite bool_decide_eq_true_2 by reflexivity. reflexivity.
Qed.

Lemma layout_effect_detects_overflow_witness :
  isMergedEllipsis allSupported (plainProps (PropBool true))
    (hooks (step allSupported (EvLayout (Some (100, 180)))
              (mount (plainProps (PropBool true)) 0 0)).1) = true.
Proof.
  destruct (layout_effect_detects_overflow allSupported
              (mount (plainProps (PropBool true)) 0 0) 100 180 eq_refl)
    as [H _].
  destruct (H eq_refl) as (_ & H2 & _). exact H2.
Defined.
